(** * The CVODE nonlinear solver interface (src/cvode/cvode_nls.c)

    A shallow embedding of the callbacks that CVODE hands to a
    SUNNonlinearSolver object: the two nonlinear system functions
    [cvNlsResidual] and [cvNlsFPFunction], the convergence test
    [cvNlsConvTest], the linear solver wrappers [cvNlsLSetup] and
    [cvNlsLSolve], and the registration routine [CVodeSetNonlinearSolver].

    Conventions of the embedding.
    - [realtype] is the IEEE 754 binary64 type (the double precision build);
      its operations are the kernel's primitive floats, so every C expression
      keeps its rounding, its infinities and its NaN.
    - [int] values are [Z]; [long int] counters are [Z] with the range of a
      64-bit long, an increment past [LONG_MAX] being undefined.
    - A C function that writes through its pointer arguments returns the new
      contents of what it wrote, next to its return code. The vectors that
      the solver passes in are distinct from the integrator's own.
    - Results are in [option]: [None] stands for undefined behaviour (a call
      through a null function pointer, a dangling solver pointer, signed
      overflow). The null checks the code makes itself are ordinary return
      codes, not [None]. *)

From Stdlib Require Import ZArith Floats List Lia.
From stdpp Require Import base option gmap.
Import ListNotations.

Set Warnings "-inexact-float".
#[local] Open Scope Z_scope.

(** ** Scalars *)

Definition realtype : Type := float.
Bind Scope float_scope with realtype.
Definition booleantype : Type := Z.

(** [RCONST(x)] gives the literal [x] the type [realtype]. *)
Definition RCONST (x : float) : realtype := x.

(** Constant macros of the file. *)
Definition ONE : realtype := RCONST 1.0.
Definition NLS_MAXCOR : Z := 3.
Definition CRDOWN : realtype := RCONST 0.3.
Definition RDIV : realtype := RCONST 2.0.

(** Modelled from the spec: the macros [SUNMIN] and [SUNMAX] of
    sundials_math.h, which is not among the sources; [min] and [max] of
    section 4.3 written as the C conditional expressions
    [(A) < (B) ? (A) : (B)] and [(A) > (B) ? (A) : (B)]. *)
Definition SUNMIN (A B : realtype) : realtype := if (A <? B)%float then A else B.
Definition SUNMAX (A B : realtype) : realtype := if (B <? A)%float then A else B.

(** A [long int] counter: [x++] is defined below [LONG_MAX] only. *)
Definition LONG_MAX : Z := 2 ^ 63 - 1.
Definition long_incr (x : Z) : option Z :=
  if x <? LONG_MAX then Some (x + 1) else None.

(** ** Return codes

    The codes are the macros of cvode.h, cvode_impl.h and
    sundials_nonlinearsolver.h, kept by name. *)
Inductive retcode : Type :=
| CV_SUCCESS
| CV_MEM_NULL
| CV_ILL_INPUT
| CV_LSETUP_FAIL
| CV_LSOLVE_FAIL
| CV_RHSFUNC_FAIL
| RHSFUNC_RECVR
| SUN_NLS_CONTINUE
| SUN_NLS_CONV_RECVR.

(** [cvNlsInit] returns [CV_SUCCESS] or one more code of cvode.h,
    [CV_NLS_INIT_FAIL]. *)
Inductive retcode_init : Type := Code (c : retcode) | CV_NLS_INIT_FAIL.

(** The values of [convfail] (cvode_impl.h). *)
Inductive ConvFail : Type := CV_NO_FAILURES | CV_FAIL_BAD_J | CV_FAIL_OTHER.

(** The return code of a routine called through a function pointer is an
    [int]; [CV_SUCCESS] is 0 among them. *)
Definition is_success (retval : Z) : bool := retval =? 0.

(** ** Vectors

    [N_Vector] is an abstract type with a table of operations; the file uses
    three of them. Modelled from the spec: section 6 gives [N_VLinearSum a x b
    y] as the elementwise [a*x + b*y], [N_VScale c x] as [c*x] and
    [N_VWrmsNorm x w] as the weighted root-mean-square norm. The destination
    vector of the C operations is the value returned here. *)
Class N_VectorOps : Type := {
  N_Vector : Type;
  N_VLinearSum : realtype -> N_Vector -> realtype -> N_Vector -> N_Vector;
  N_VScale : realtype -> N_Vector -> N_Vector;
  N_VWrmsNorm : N_Vector -> N_Vector -> realtype
}.

(** Modelled from the spec: the serial vector (nvector_serial.c is not among
    the sources), an array of [realtype] with the operations of section 6
    taken component by component, in index order. *)
Module NVectorSerial.

Definition SUNSQR (A : realtype) : realtype := (A * A)%float.
Definition SUNRsqrt (x : realtype) : realtype :=
  if (x <=? 0)%float then 0%float else PrimFloat.sqrt x.

Fixpoint linear_sum (a : realtype) (x : list realtype) (b : realtype)
  (y : list realtype) : list realtype :=
  match x, y with
  | xi :: x', yi :: y' => (a * xi + b * yi)%float :: linear_sum a x' b y'
  | _, _ => []
  end.

Definition scale (c : realtype) (x : list realtype) : list realtype :=
  List.map (fun xi => (c * xi)%float) x.

Fixpoint sum_sq (acc : realtype) (x w : list realtype) : realtype :=
  match x, w with
  | xi :: x', wi :: w' => sum_sq (acc + SUNSQR (xi * wi))%float x' w'
  | _, _ => acc
  end.

Definition wrms_norm (x w : list realtype) : realtype :=
  SUNRsqrt (sum_sq 0%float x w
            / PrimFloat.of_uint63 (Uint63.of_Z (Z.of_nat (length x))))%float.

#[export] Instance ops : N_VectorOps := {|
  N_Vector := list realtype;
  N_VLinearSum := linear_sum;
  N_VScale := scale;
  N_VWrmsNorm := wrms_norm
|}.

End NVectorSerial.

(** ** Nonlinear solver objects

    A [SUNNonlinearSolver] is a pointer, possibly null, to an object made of
    a content and a table of operations; an operation that the
    implementation does not provide is a null entry. The solver objects live
    in a heap, so that freeing one is visible. *)
Definition loc : Type := positive.
Definition SUNNonlinearSolver : Type := option loc.

(** [SUNNonlinearSolver_Type] is a C enumeration, read as [int]. *)
Definition SUNNONLINEARSOLVER_ROOTFIND : Z := 0.
Definition SUNNONLINEARSOLVER_FIXEDPOINT : Z := 1.

(** The callbacks of this file, as the function pointers handed to a
    solver. *)
Inductive SUNNonlinSolSysFn : Type := cvNlsResidual_fn | cvNlsFPFunction_fn.
Inductive SUNNonlinSolConvTestFn : Type := cvNlsConvTest_fn.
Inductive SUNNonlinSolLSetupFn : Type := cvNlsLSetup_fn.
Inductive SUNNonlinSolLSolveFn : Type := cvNlsLSolve_fn.

(** A pointer to a linear solver routine of the integrator. *)
Definition fnptr : Type := positive.

Section Model.

Context {NV : N_VectorOps}.

(** The type behind the [void*] user data and behind a solver's content. *)
Context {UserData : Type} {NLSContent : Type}.

(** The table of operations of a solver. Operations whose body the
    functions below never need ([initialize], [solve]) are kept as
    pointers. *)
Record SUNNonlinearSolver_Ops : Type := mkOps {
  gettype : option (NLSContent -> Z);
  initialize : option fnptr;
  solve : option fnptr;
  free : option (NLSContent -> Z);
  setsysfn : option (SUNNonlinSolSysFn -> NLSContent -> Z * NLSContent);
  setctestfn : option (SUNNonlinSolConvTestFn -> NLSContent -> Z * NLSContent);
  setmaxiters : option (Z -> NLSContent -> Z * NLSContent);
  getcuriter : option (NLSContent -> Z * Z)
}.

Record SUNNonlinearSolver_obj : Type := mkNLS {
  content : NLSContent;
  ops : SUNNonlinearSolver_Ops
}.

(** The solver objects in memory, by address. *)
#[local] Abbreviation heap := (gmap loc SUNNonlinearSolver_obj).

(** The user's right-hand side [f(t, y, ydot, user_data)]: it returns its
    status, what it wrote into [ydot] and what it left in the user data. *)
Definition CVRhsFn : Type :=
  realtype -> N_Vector -> N_Vector -> UserData -> Z * N_Vector * UserData.

(** ** The integrator memory

    The fields of [struct CVodeMemRec] that the file touches. [cv_zn] is the
    array of history vectors, indexed from 0. The field [NLS] of the C
    structure is [cv_NLS] here. *)
Record CVodeMem : Type := mkCVodeMem {
  cv_f : CVRhsFn;
  cv_user_data : UserData;
  cv_tn : realtype;
  cv_zn : nat -> N_Vector;
  cv_y : N_Vector;
  cv_ftemp : N_Vector;
  cv_vtemp1 : N_Vector;
  cv_vtemp2 : N_Vector;
  cv_vtemp3 : N_Vector;
  cv_ewt : N_Vector;
  cv_h : realtype;
  cv_rl1 : realtype;
  cv_gamma : realtype;
  cv_gammap : realtype;
  cv_gamrat : realtype;
  cv_crate : realtype;
  cv_acnrm : realtype;
  cv_nst : Z;
  cv_nfe : Z;
  cv_nsetups : Z;
  cv_nstlp : Z;
  cv_jcur : booleantype;
  convfail : ConvFail;
  cv_lsetup : option fnptr;
  cv_lsolve : option fnptr;
  cv_NLS : SUNNonlinearSolver
}.

(** Assignments to single fields. *)
Definition set_cv_user_data (v : UserData) (m : CVodeMem) : CVodeMem :=
  {| cv_f := cv_f m; cv_user_data := v; cv_tn := cv_tn m; cv_zn := cv_zn m;
     cv_y := cv_y m; cv_ftemp := cv_ftemp m; cv_vtemp1 := cv_vtemp1 m;
     cv_vtemp2 := cv_vtemp2 m; cv_vtemp3 := cv_vtemp3 m; cv_ewt := cv_ewt m;
     cv_h := cv_h m; cv_rl1 := cv_rl1 m; cv_gamma := cv_gamma m;
     cv_gammap := cv_gammap m; cv_gamrat := cv_gamrat m;
     cv_crate := cv_crate m; cv_acnrm := cv_acnrm m; cv_nst := cv_nst m;
     cv_nfe := cv_nfe m; cv_nsetups := cv_nsetups m; cv_nstlp := cv_nstlp m;
     cv_jcur := cv_jcur m; convfail := convfail m; cv_lsetup := cv_lsetup m;
     cv_lsolve := cv_lsolve m; cv_NLS := cv_NLS m |}.

Definition set_cv_y (v : N_Vector) (m : CVodeMem) : CVodeMem :=
  {| cv_f := cv_f m; cv_user_data := cv_user_data m; cv_tn := cv_tn m;
     cv_zn := cv_zn m; cv_y := v; cv_ftemp := cv_ftemp m;
     cv_vtemp1 := cv_vtemp1 m; cv_vtemp2 := cv_vtemp2 m;
     cv_vtemp3 := cv_vtemp3 m; cv_ewt := cv_ewt m; cv_h := cv_h m;
     cv_rl1 := cv_rl1 m; cv_gamma := cv_gamma m; cv_gammap := cv_gammap m;
     cv_gamrat := cv_gamrat m; cv_crate := cv_crate m;
     cv_acnrm := cv_acnrm m; cv_nst := cv_nst m; cv_nfe := cv_nfe m;
     cv_nsetups := cv_nsetups m; cv_nstlp := cv_nstlp m;
     cv_jcur := cv_jcur m; convfail := convfail m; cv_lsetup := cv_lsetup m;
     cv_lsolve := cv_lsolve m; cv_NLS := cv_NLS m |}.

Definition set_cv_ftemp (v : N_Vector) (m : CVodeMem) : CVodeMem :=
  {| cv_f := cv_f m; cv_user_data := cv_user_data m; cv_tn := cv_tn m;
     cv_zn := cv_zn m; cv_y := cv_y m; cv_ftemp := v;
     cv_vtemp1 := cv_vtemp1 m; cv_vtemp2 := cv_vtemp2 m;
     cv_vtemp3 := cv_vtemp3 m; cv_ewt := cv_ewt m; cv_h := cv_h m;
     cv_rl1 := cv_rl1 m; cv_gamma := cv_gamma m; cv_gammap := cv_gammap m;
     cv_gamrat := cv_gamrat m; cv_crate := cv_crate m;
     cv_acnrm := cv_acnrm m; cv_nst := cv_nst m; cv_nfe := cv_nfe m;
     cv_nsetups := cv_nsetups m; cv_nstlp := cv_nstlp m;
     cv_jcur := cv_jcur m; convfail := convfail m; cv_lsetup := cv_lsetup m;
     cv_lsolve := cv_lsolve m; cv_NLS := cv_NLS m |}.

Definition set_cv_gammap (v : realtype) (m : CVodeMem) : CVodeMem :=
  {| cv_f := cv_f m; cv_user_data := cv_user_data m; cv_tn := cv_tn m;
     cv_zn := cv_zn m; cv_y := cv_y m; cv_ftemp := cv_ftemp m;
     cv_vtemp1 := cv_vtemp1 m; cv_vtemp2 := cv_vtemp2 m;
     cv_vtemp3 := cv_vtemp3 m; cv_ewt := cv_ewt m; cv_h := cv_h m;
     cv_rl1 := cv_rl1 m; cv_gamma := cv_gamma m; cv_gammap := v;
     cv_gamrat := cv_gamrat m; cv_crate := cv_crate m;
     cv_acnrm := cv_acnrm m; cv_nst := cv_nst m; cv_nfe := cv_nfe m;
     cv_nsetups := cv_nsetups m; cv_nstlp := cv_nstlp m;
     cv_jcur := cv_jcur m; convfail := convfail m; cv_lsetup := cv_lsetup m;
     cv_lsolve := cv_lsolve m; cv_NLS := cv_NLS m |}.

Definition set_cv_gamrat (v : realtype) (m : CVodeMem) : CVodeMem :=
  {| cv_f := cv_f m; cv_user_data := cv_user_data m; cv_tn := cv_tn m;
     cv_zn := cv_zn m; cv_y := cv_y m; cv_ftemp := cv_ftemp m;
     cv_vtemp1 := cv_vtemp1 m; cv_vtemp2 := cv_vtemp2 m;
     cv_vtemp3 := cv_vtemp3 m; cv_ewt := cv_ewt m; cv_h := cv_h m;
     cv_rl1 := cv_rl1 m; cv_gamma := cv_gamma m; cv_gammap := cv_gammap m;
     cv_gamrat := v; cv_crate := cv_crate m; cv_acnrm := cv_acnrm m;
     cv_nst := cv_nst m; cv_nfe := cv_nfe m; cv_nsetups := cv_nsetups m;
     cv_nstlp := cv_nstlp m; cv_jcur := cv_jcur m; convfail := convfail m;
     cv_lsetup := cv_lsetup m; cv_lsolve := cv_lsolve m;
     cv_NLS := cv_NLS m |}.

Definition set_cv_crate (v : realtype) (m : CVodeMem) : CVodeMem :=
  {| cv_f := cv_f m; cv_user_data := cv_user_data m; cv_tn := cv_tn m;
     cv_zn := cv_zn m; cv_y := cv_y m; cv_ftemp := cv_ftemp m;
     cv_vtemp1 := cv_vtemp1 m; cv_vtemp2 := cv_vtemp2 m;
     cv_vtemp3 := cv_vtemp3 m; cv_ewt := cv_ewt m; cv_h := cv_h m;
     cv_rl1 := cv_rl1 m; cv_gamma := cv_gamma m; cv_gammap := cv_gammap m;
     cv_gamrat := cv_gamrat m; cv_crate := v; cv_acnrm := cv_acnrm m;
     cv_nst := cv_nst m; cv_nfe := cv_nfe m; cv_nsetups := cv_nsetups m;
     cv_nstlp := cv_nstlp m; cv_jcur := cv_jcur m; convfail := convfail m;
     cv_lsetup := cv_lsetup m; cv_lsolve := cv_lsolve m;
     cv_NLS := cv_NLS m |}.

Definition set_cv_acnrm (v : realtype) (m : CVodeMem) : CVodeMem :=
  {| cv_f := cv_f m; cv_user_data := cv_user_data m; cv_tn := cv_tn m;
     cv_zn := cv_zn m; cv_y := cv_y m; cv_ftemp := cv_ftemp m;
     cv_vtemp1 := cv_vtemp1 m; cv_vtemp2 := cv_vtemp2 m;
     cv_vtemp3 := cv_vtemp3 m; cv_ewt := cv_ewt m; cv_h := cv_h m;
     cv_rl1 := cv_rl1 m; cv_gamma := cv_gamma m; cv_gammap := cv_gammap m;
     cv_gamrat := cv_gamrat m; cv_crate := cv_crate m; cv_acnrm := v;
     cv_nst := cv_nst m; cv_nfe := cv_nfe m; cv_nsetups := cv_nsetups m;
     cv_nstlp := cv_nstlp m; cv_jcur := cv_jcur m; convfail := convfail m;
     cv_lsetup := cv_lsetup m; cv_lsolve := cv_lsolve m;
     cv_NLS := cv_NLS m |}.

Definition set_cv_nfe (v : Z) (m : CVodeMem) : CVodeMem :=
  {| cv_f := cv_f m; cv_user_data := cv_user_data m; cv_tn := cv_tn m;
     cv_zn := cv_zn m; cv_y := cv_y m; cv_ftemp := cv_ftemp m;
     cv_vtemp1 := cv_vtemp1 m; cv_vtemp2 := cv_vtemp2 m;
     cv_vtemp3 := cv_vtemp3 m; cv_ewt := cv_ewt m; cv_h := cv_h m;
     cv_rl1 := cv_rl1 m; cv_gamma := cv_gamma m; cv_gammap := cv_gammap m;
     cv_gamrat := cv_gamrat m; cv_crate := cv_crate m;
     cv_acnrm := cv_acnrm m; cv_nst := cv_nst m; cv_nfe := v;
     cv_nsetups := cv_nsetups m; cv_nstlp := cv_nstlp m;
     cv_jcur := cv_jcur m; convfail := convfail m; cv_lsetup := cv_lsetup m;
     cv_lsolve := cv_lsolve m; cv_NLS := cv_NLS m |}.

Definition set_cv_nsetups (v : Z) (m : CVodeMem) : CVodeMem :=
  {| cv_f := cv_f m; cv_user_data := cv_user_data m; cv_tn := cv_tn m;
     cv_zn := cv_zn m; cv_y := cv_y m; cv_ftemp := cv_ftemp m;
     cv_vtemp1 := cv_vtemp1 m; cv_vtemp2 := cv_vtemp2 m;
     cv_vtemp3 := cv_vtemp3 m; cv_ewt := cv_ewt m; cv_h := cv_h m;
     cv_rl1 := cv_rl1 m; cv_gamma := cv_gamma m; cv_gammap := cv_gammap m;
     cv_gamrat := cv_gamrat m; cv_crate := cv_crate m;
     cv_acnrm := cv_acnrm m; cv_nst := cv_nst m; cv_nfe := cv_nfe m;
     cv_nsetups := v; cv_nstlp := cv_nstlp m; cv_jcur := cv_jcur m;
     convfail := convfail m; cv_lsetup := cv_lsetup m;
     cv_lsolve := cv_lsolve m; cv_NLS := cv_NLS m |}.

Definition set_cv_nstlp (v : Z) (m : CVodeMem) : CVodeMem :=
  {| cv_f := cv_f m; cv_user_data := cv_user_data m; cv_tn := cv_tn m;
     cv_zn := cv_zn m; cv_y := cv_y m; cv_ftemp := cv_ftemp m;
     cv_vtemp1 := cv_vtemp1 m; cv_vtemp2 := cv_vtemp2 m;
     cv_vtemp3 := cv_vtemp3 m; cv_ewt := cv_ewt m; cv_h := cv_h m;
     cv_rl1 := cv_rl1 m; cv_gamma := cv_gamma m; cv_gammap := cv_gammap m;
     cv_gamrat := cv_gamrat m; cv_crate := cv_crate m;
     cv_acnrm := cv_acnrm m; cv_nst := cv_nst m; cv_nfe := cv_nfe m;
     cv_nsetups := cv_nsetups m; cv_nstlp := v; cv_jcur := cv_jcur m;
     convfail := convfail m; cv_lsetup := cv_lsetup m;
     cv_lsolve := cv_lsolve m; cv_NLS := cv_NLS m |}.

Definition set_convfail (v : ConvFail) (m : CVodeMem) : CVodeMem :=
  {| cv_f := cv_f m; cv_user_data := cv_user_data m; cv_tn := cv_tn m;
     cv_zn := cv_zn m; cv_y := cv_y m; cv_ftemp := cv_ftemp m;
     cv_vtemp1 := cv_vtemp1 m; cv_vtemp2 := cv_vtemp2 m;
     cv_vtemp3 := cv_vtemp3 m; cv_ewt := cv_ewt m; cv_h := cv_h m;
     cv_rl1 := cv_rl1 m; cv_gamma := cv_gamma m; cv_gammap := cv_gammap m;
     cv_gamrat := cv_gamrat m; cv_crate := cv_crate m;
     cv_acnrm := cv_acnrm m; cv_nst := cv_nst m; cv_nfe := cv_nfe m;
     cv_nsetups := cv_nsetups m; cv_nstlp := cv_nstlp m;
     cv_jcur := cv_jcur m; convfail := v; cv_lsetup := cv_lsetup m;
     cv_lsolve := cv_lsolve m; cv_NLS := cv_NLS m |}.

Definition set_cv_NLS (v : SUNNonlinearSolver) (m : CVodeMem) : CVodeMem :=
  {| cv_f := cv_f m; cv_user_data := cv_user_data m; cv_tn := cv_tn m;
     cv_zn := cv_zn m; cv_y := cv_y m; cv_ftemp := cv_ftemp m;
     cv_vtemp1 := cv_vtemp1 m; cv_vtemp2 := cv_vtemp2 m;
     cv_vtemp3 := cv_vtemp3 m; cv_ewt := cv_ewt m; cv_h := cv_h m;
     cv_rl1 := cv_rl1 m; cv_gamma := cv_gamma m; cv_gammap := cv_gammap m;
     cv_gamrat := cv_gamrat m; cv_crate := cv_crate m;
     cv_acnrm := cv_acnrm m; cv_nst := cv_nst m; cv_nfe := cv_nfe m;
     cv_nsetups := cv_nsetups m; cv_nstlp := cv_nstlp m;
     cv_jcur := cv_jcur m; convfail := convfail m; cv_lsetup := cv_lsetup m;
     cv_lsolve := cv_lsolve m; cv_NLS := v |}.

(** The linear solver routines behind the pointers [cv_lsetup] and
    [cv_lsolve]. Both receive the integrator memory itself; the vectors and
    the flag they are handed are fields of it, so what they write is read
    back from the memory they return. [cv_lsolve] moreover overwrites the
    right-hand side vector it is given. *)
Variable lsetup_body : fnptr -> CVodeMem -> ConvFail -> Z * CVodeMem.
Variable lsolve_body : fnptr -> CVodeMem -> N_Vector -> Z * N_Vector * CVodeMem.

(** ** The generic solver interface

    Modelled from the spec: the dispatching functions of
    sundials_nonlinearsolver.c, which is not among the sources. Each calls the
    operation of the same name on the object; section 4.6 names type query,
    initialize, solve, free and set-system-function as mandatory, the other
    setters answer success when the operation is absent, and freeing
    releases the object. *)
Definition SUNNonlinSolGetType (NLS : SUNNonlinearSolver) (h : heap) : option Z :=
  p ← NLS; obj ← h !! p; f ← gettype (ops obj); Some (f (content obj)).

Definition SUNNonlinSolFree (NLS : SUNNonlinearSolver) (h : heap)
  : option (Z * heap) :=
  match NLS with
  | None => Some (0, h)
  | Some p =>
      obj ← h !! p; f ← free (ops obj); Some (f (content obj), delete p h)
  end.

Definition store_content (p : loc) (obj : SUNNonlinearSolver_obj)
  (rc : Z * NLSContent) (h : heap) : Z * heap :=
  (rc.1, <[p := mkNLS rc.2 (ops obj)]> h).

Definition SUNNonlinSolSetSysFn (NLS : SUNNonlinearSolver)
  (SysFn : SUNNonlinSolSysFn) (h : heap) : option (Z * heap) :=
  p ← NLS; obj ← h !! p; f ← setsysfn (ops obj);
  Some (store_content p obj (f SysFn (content obj)) h).

Definition SUNNonlinSolSetConvTestFn (NLS : SUNNonlinearSolver)
  (CTestFn : SUNNonlinSolConvTestFn) (h : heap) : option (Z * heap) :=
  p ← NLS; obj ← h !! p;
  match setctestfn (ops obj) with
  | Some f => Some (store_content p obj (f CTestFn (content obj)) h)
  | None => Some (0, h)
  end.

Definition SUNNonlinSolSetMaxIters (NLS : SUNNonlinearSolver) (maxiters : Z)
  (h : heap) : option (Z * heap) :=
  p ← NLS; obj ← h !! p;
  match setmaxiters (ops obj) with
  | Some f => Some (store_content p obj (f maxiters (content obj)) h)
  | None => Some (0, h)
  end.

(** [SUNNonlinSolGetCurIter(NLS, &m)]: the return code and the value
    written to [m]. *)
Definition SUNNonlinSolGetCurIter (NLS : SUNNonlinearSolver) (h : heap)
  : option (Z * Z) :=
  p ← NLS; obj ← h !! p; f ← getcuriter (ops obj); Some (f (content obj)).

(** ** Exported function *)

Definition is_null {A : Type} (p : option A) : bool :=
  match p with None => true | Some _ => false end.

(** [cvProcessError] hands a message to the error handler and changes
    neither the integrator fields above nor a solver; it leaves no trace
    here. [check_and_finish] is the code from the test of the value that
    setting the system function returned to the end, which both branches
    of the type test reach. *)
Definition CVodeSetNonlinearSolver (cvode_mem : option CVodeMem)
  (NLS : SUNNonlinearSolver) (h : heap)
  : option (retcode * option CVodeMem * heap) :=
  match cvode_mem with
  | None => Some (CV_MEM_NULL, None, h)
  | Some cv_mem =>
  match NLS with
  | None => Some (CV_ILL_INPUT, Some cv_mem, h)
  | Some p =>
  let check_and_finish (cv_mem : CVodeMem) (r : Z * heap) :=
    let '(retval, h) := r in
    if negb (is_success retval) then Some (CV_ILL_INPUT, Some cv_mem, h) else
    (* set convergence test function *)
    '(retval, h) ← SUNNonlinSolSetConvTestFn (cv_NLS cv_mem) cvNlsConvTest_fn h;
    if negb (is_success retval) then Some (CV_ILL_INPUT, Some cv_mem, h) else
    (* set max allowed nonlinear iterations *)
    '(retval, h) ← SUNNonlinSolSetMaxIters (cv_NLS cv_mem) NLS_MAXCOR h;
    if negb (is_success retval) then Some (CV_ILL_INPUT, Some cv_mem, h) else
    Some (CV_SUCCESS, Some cv_mem, h) in
  obj ← h !! p;
  (* check for required nonlinear solver functions *)
  if is_null (gettype (ops obj)) || is_null (initialize (ops obj))
     || is_null (solve (ops obj)) || is_null (free (ops obj))
     || is_null (setsysfn (ops obj))
  then Some (CV_ILL_INPUT, Some cv_mem, h) else
  (* free any existing nonlinear solver *)
  h ← (if is_null (cv_NLS cv_mem) then Some h
       else snd <$> SUNNonlinSolFree (cv_NLS cv_mem) h);
  (* set SUNNonlinearSolver pointer *)
  let cv_mem := set_cv_NLS NLS cv_mem in
  (* set the nonlinear system function *)
  ty ← SUNNonlinSolGetType NLS h;
  if ty =? SUNNONLINEARSOLVER_ROOTFIND then
    r ← SUNNonlinSolSetSysFn (cv_NLS cv_mem) cvNlsResidual_fn h;
    check_and_finish cv_mem r
  else
    ty ← SUNNonlinSolGetType NLS h;
    if ty =? SUNNONLINEARSOLVER_FIXEDPOINT then
      r ← SUNNonlinSolSetSysFn (cv_NLS cv_mem) cvNlsFPFunction_fn h;
      check_and_finish cv_mem r
    else Some (CV_ILL_INPUT, Some cv_mem, h)
  end
  end.

(** ** Private functions *)

(** The dispatchers that only [cvNlsInit] calls. The table of operations
    above does not hold what they dispatch to, and sundials_nonlinearsolver.c
    is not among the sources: they are parameters, each giving its return
    code and the heap it leaves. A null function pointer is [None]. *)
Variable SUNNonlinSolSetLSetupFn :
  SUNNonlinearSolver -> option SUNNonlinSolLSetupFn -> heap -> option (Z * heap).
Variable SUNNonlinSolSetLSolveFn :
  SUNNonlinearSolver -> option SUNNonlinSolLSolveFn -> heap -> option (Z * heap).
Variable SUNNonlinSolInitialize :
  SUNNonlinearSolver -> heap -> option (Z * heap).

(** [cvNlsInit] takes the integrator memory itself, without a null check,
    and writes to none of its fields. *)
Definition cvNlsInit (cvode_mem : CVodeMem) (h : heap)
  : option (retcode_init * heap) :=
  (* set the linear solver setup wrapper function *)
  '(retval, h) ←
    (if negb (is_null (cv_lsetup cvode_mem))
     then SUNNonlinSolSetLSetupFn (cv_NLS cvode_mem) (Some cvNlsLSetup_fn) h
     else SUNNonlinSolSetLSetupFn (cv_NLS cvode_mem) None h);
  if negb (is_success retval) then Some (CV_NLS_INIT_FAIL, h) else
  (* set the linear solver solve wrapper function *)
  '(retval, h) ←
    (if negb (is_null (cv_lsolve cvode_mem))
     then SUNNonlinSolSetLSolveFn (cv_NLS cvode_mem) (Some cvNlsLSolve_fn) h
     else SUNNonlinSolSetLSolveFn (cv_NLS cvode_mem) None h);
  if negb (is_success retval) then Some (CV_NLS_INIT_FAIL, h) else
  (* initialize nonlinear solver *)
  '(retval, h) ← SUNNonlinSolInitialize (cv_NLS cvode_mem) h;
  if negb (is_success retval) then Some (CV_NLS_INIT_FAIL, h) else
  Some (Code CV_SUCCESS, h).

(** [jcur] is the content of [*jcur] at the call; the second component of
    the result is its content at the return. *)
Definition cvNlsLSetup (ycor res : N_Vector) (jbad : booleantype)
  (jcur : booleantype) (cvode_mem : option CVodeMem)
  : option (retcode * booleantype * option CVodeMem) :=
  match cvode_mem with
  | None => Some (CV_MEM_NULL, jcur, None)
  | Some cv_mem =>
  (* if the nonlinear solver marked the Jacobian as bad update convfail *)
  let cv_mem := if negb (jbad =? 0) then set_convfail CV_FAIL_BAD_J cv_mem
                else cv_mem in
  (* setup the linear solver *)
  lsetup ← cv_lsetup cv_mem;
  let '(retval, cv_mem) := lsetup_body lsetup cv_mem (convfail cv_mem) in
  nsetups ← long_incr (cv_nsetups cv_mem);
  let cv_mem := set_cv_nsetups nsetups cv_mem in
  (* update Jacobian status *)
  let jcur := cv_jcur cv_mem in
  let cv_mem := set_cv_crate ONE cv_mem in
  let cv_mem := set_cv_gamrat (cv_crate cv_mem) cv_mem in
  let cv_mem := set_cv_gammap (cv_gamma cv_mem) cv_mem in
  let cv_mem := set_cv_nstlp (cv_nst cv_mem) cv_mem in
  if retval <? 0 then Some (CV_LSETUP_FAIL, jcur, Some cv_mem) else
  if 0 <? retval then Some (SUN_NLS_CONV_RECVR, jcur, Some cv_mem) else
  Some (CV_SUCCESS, jcur, Some cv_mem)
  end.

(** The second component of the result is the content of [delta] at the
    return. *)
Definition cvNlsLSolve (ycor delta : N_Vector) (cvode_mem : option CVodeMem)
  : option (retcode * N_Vector * option CVodeMem) :=
  match cvode_mem with
  | None => Some (CV_MEM_NULL, delta, None)
  | Some cv_mem =>
  lsolve ← cv_lsolve cv_mem;
  let '(retval, delta, cv_mem) := lsolve_body lsolve cv_mem delta in
  if retval <? 0 then Some (CV_LSOLVE_FAIL, delta, Some cv_mem) else
  if 0 <? retval then Some (SUN_NLS_CONV_RECVR, delta, Some cv_mem) else
  Some (CV_SUCCESS, delta, Some cv_mem)
  end.

(** [delp] is a [static] variable of the function: its value at the call is
    an argument and its value at the return the last component of the
    result. *)
Definition cvNlsConvTest (NLS : SUNNonlinearSolver) (ycor delta : N_Vector)
  (tol : realtype) (ewt : N_Vector) (cvode_mem : option CVodeMem) (h : heap)
  (delp : realtype) : option (retcode * option CVodeMem * realtype) :=
  match cvode_mem with
  | None => Some (CV_MEM_NULL, None, delp)
  | Some cv_mem =>
  (* compute the norm of the correction *)
  let del := N_VWrmsNorm delta ewt in
  (* get the current nonlinear solver iteration count *)
  '(retval, m) ← SUNNonlinSolGetCurIter NLS h;
  if negb (is_success retval) then Some (CV_MEM_NULL, Some cv_mem, delp) else
  (* Test for convergence. If m > 0, an estimate of the convergence
     rate constant is stored in crate, and used in the test. *)
  let cv_mem :=
    if 0 <? m
    then set_cv_crate (SUNMAX (CRDOWN * cv_crate cv_mem) (del / delp))%float cv_mem
    else cv_mem in
  let dcon := (del * SUNMIN ONE (cv_crate cv_mem) / tol)%float in
  if (dcon <=? ONE)%float then
    let acnrm := if m =? 0 then del else N_VWrmsNorm ycor (cv_ewt cv_mem) in
    Some (CV_SUCCESS, Some (set_cv_acnrm acnrm cv_mem), delp)
  else
  (* check if the iteration seems to be diverging *)
  if (1 <=? m) && (RDIV * delp <? del)%float
  then Some (SUN_NLS_CONV_RECVR, Some cv_mem, delp)
  else
  (* Save norm of correction and loop again *)
  Some (SUN_NLS_CONTINUE, Some cv_mem, del)
  end.

(** The second component of the result is the content of [res] at the
    return. The right-hand side writes into [cv_ftemp] in [cvNlsResidual] and
    into [res] itself in [cvNlsFPFunction]. *)
Definition cvNlsResidual (ycor res : N_Vector) (cvode_mem : option CVodeMem)
  : option (retcode * N_Vector * option CVodeMem) :=
  match cvode_mem with
  | None => Some (CV_MEM_NULL, res, None)
  | Some cv_mem =>
  (* update the state based on the current correction *)
  let cv_mem := set_cv_y (N_VLinearSum ONE (cv_zn cv_mem 0%nat) ONE ycor) cv_mem in
  (* evaluate the rhs function *)
  let '(retval, ftemp, user_data) :=
    cv_f cv_mem (cv_tn cv_mem) (cv_y cv_mem) (cv_ftemp cv_mem)
      (cv_user_data cv_mem) in
  let cv_mem := set_cv_user_data user_data (set_cv_ftemp ftemp cv_mem) in
  nfe ← long_incr (cv_nfe cv_mem);
  let cv_mem := set_cv_nfe nfe cv_mem in
  if retval <? 0 then Some (CV_RHSFUNC_FAIL, res, Some cv_mem) else
  if 0 <? retval then Some (RHSFUNC_RECVR, res, Some cv_mem) else
  let res := N_VLinearSum (cv_rl1 cv_mem) (cv_zn cv_mem 1%nat) ONE ycor in
  let res := N_VLinearSum (- cv_gamma cv_mem)%float (cv_ftemp cv_mem) ONE res in
  Some (CV_SUCCESS, res, Some cv_mem)
  end.

Definition cvNlsFPFunction (ycor res : N_Vector) (cvode_mem : option CVodeMem)
  : option (retcode * N_Vector * option CVodeMem) :=
  match cvode_mem with
  | None => Some (CV_MEM_NULL, res, None)
  | Some cv_mem =>
  (* update the state based on the current correction *)
  let cv_mem := set_cv_y (N_VLinearSum ONE (cv_zn cv_mem 0%nat) ONE ycor) cv_mem in
  (* evaluate the rhs function *)
  let '(retval, res, user_data) :=
    cv_f cv_mem (cv_tn cv_mem) (cv_y cv_mem) res (cv_user_data cv_mem) in
  let cv_mem := set_cv_user_data user_data cv_mem in
  nfe ← long_incr (cv_nfe cv_mem);
  let cv_mem := set_cv_nfe nfe cv_mem in
  if retval <? 0 then Some (CV_RHSFUNC_FAIL, res, Some cv_mem) else
  if 0 <? retval then Some (RHSFUNC_RECVR, res, Some cv_mem) else
  let res := N_VLinearSum (cv_h cv_mem) res (- ONE)%float (cv_zn cv_mem 1%nat) in
  let res := N_VScale (cv_rl1 cv_mem) res in
  Some (CV_SUCCESS, res, Some cv_mem)
  end.

End Model.

Arguments SUNNonlinearSolver_Ops NLSContent : clear implicits.
Arguments SUNNonlinearSolver_obj NLSContent : clear implicits.
Abbreviation heap NLSContent := (gmap loc (SUNNonlinearSolver_obj NLSContent)).
Arguments CVRhsFn {NV} UserData.
Arguments CVodeMem {NV} UserData.

(** ** A concrete integrator

    One serial integrator of dimension 1 with its solvers and linear solver
    routines, on which the functions above are run. *)
Module Scenario.

Import NVectorSerial.

(** The content of a solver: its iteration count and what the setters
    stored. *)
Record content_t : Type := mkContent {
  curiter : Z;
  Sys : option SUNNonlinSolSysFn;
  CTest : option SUNNonlinSolConvTestFn;
  maxiters : Z
}.

Definition newton_ops (type : Z) : SUNNonlinearSolver_Ops content_t :=
  mkOps
    (Some (fun _ => type))
    (Some 1%positive)
    (Some 2%positive)
    (Some (fun _ => 0))
    (Some (fun fn c => (0, mkContent (curiter c) (Some fn) (CTest c) (maxiters c))))
    (Some (fun fn c => (0, mkContent (curiter c) (Sys c) (Some fn) (maxiters c))))
    (Some (fun n c => (0, mkContent (curiter c) (Sys c) (CTest c) n)))
    (Some (fun c => (0, curiter c))).

(** A solver of the given type at iteration [m]. *)
Definition solver (type m : Z) : SUNNonlinearSolver_obj content_t :=
  mkNLS (mkContent m None None 0) (newton_ops type).


(** Right-hand sides: one that succeeds with the value [2.0], and one that
    writes nothing and returns the given status. *)
Definition rhs_two : CVRhsFn unit :=
  fun _ _ _ ud => (0, [2.0%float], ud).
Definition rhs_status (status : Z) : CVRhsFn unit :=
  fun _ _ ydot ud => (status, ydot, ud).

(** The integrator of the end-to-end scenarios: [zn[0] = [1.0]],
    [zn[1] = [0.5]], [rl1 = 1.0], [gamma = 0.1], with the given right-hand
    side, convergence rate and installed solver. *)
Definition mem (f : CVRhsFn unit) (crate : realtype) (NLS : SUNNonlinearSolver)
  : CVodeMem unit :=
  {| cv_f := f; cv_user_data := tt; cv_tn := 0%float;
     cv_zn := fun i => match i with O => [1.0%float] | _ => [0.5%float] end;
     cv_y := [7.0%float]; cv_ftemp := [0%float]; cv_vtemp1 := [0%float];
     cv_vtemp2 := [0%float]; cv_vtemp3 := [0%float]; cv_ewt := [1.0%float];
     cv_h := 0.1%float; cv_rl1 := 1.0%float; cv_gamma := 0.1%float;
     cv_gammap := 0.2%float; cv_gamrat := 0.5%float; cv_crate := crate;
     cv_acnrm := 0%float; cv_nst := 10; cv_nfe := 20; cv_nsetups := 3;
     cv_nstlp := 4; cv_jcur := 0; convfail := CV_NO_FAILURES;
     cv_lsetup := Some 1%positive; cv_lsolve := Some 1%positive;
     cv_NLS := NLS |}.

(** The same integrator with the given setup and solve routines, either of
    which may be absent. *)
Definition mem_routines (lsetup lsolve : option fnptr) : CVodeMem unit :=
  {| cv_f := rhs_two; cv_user_data := tt; cv_tn := 0%float;
     cv_zn := fun i => match i with O => [1.0%float] | _ => [0.5%float] end;
     cv_y := [7.0%float]; cv_ftemp := [0%float]; cv_vtemp1 := [0%float];
     cv_vtemp2 := [0%float]; cv_vtemp3 := [0%float]; cv_ewt := [1.0%float];
     cv_h := 0.1%float; cv_rl1 := 1.0%float; cv_gamma := 0.1%float;
     cv_gammap := 0.2%float; cv_gamrat := 0.5%float; cv_crate := 0.5%float;
     cv_acnrm := 0%float; cv_nst := 10; cv_nfe := 20; cv_nsetups := 3;
     cv_nstlp := 4; cv_jcur := 0; convfail := CV_NO_FAILURES;
     cv_lsetup := lsetup; cv_lsolve := lsolve; cv_NLS := None |}.

(** Linear solver routines that touch only the Jacobian flag and return the
    status their pointer stands for: 1 succeeds, 2 fails recoverably, any
    other fails for good. *)
Definition status_of (fp : fnptr) : Z :=
  match fp with 1%positive => 0 | 2%positive => 1 | _ => -1 end.

Definition set_cv_jcur (v : booleantype) (m : CVodeMem unit) : CVodeMem unit :=
  {| cv_f := cv_f m; cv_user_data := cv_user_data m; cv_tn := cv_tn m;
     cv_zn := cv_zn m; cv_y := cv_y m; cv_ftemp := cv_ftemp m;
     cv_vtemp1 := cv_vtemp1 m; cv_vtemp2 := cv_vtemp2 m;
     cv_vtemp3 := cv_vtemp3 m; cv_ewt := cv_ewt m; cv_h := cv_h m;
     cv_rl1 := cv_rl1 m; cv_gamma := cv_gamma m; cv_gammap := cv_gammap m;
     cv_gamrat := cv_gamrat m; cv_crate := cv_crate m;
     cv_acnrm := cv_acnrm m; cv_nst := cv_nst m; cv_nfe := cv_nfe m;
     cv_nsetups := cv_nsetups m; cv_nstlp := cv_nstlp m; cv_jcur := v;
     convfail := convfail m; cv_lsetup := cv_lsetup m;
     cv_lsolve := cv_lsolve m; cv_NLS := cv_NLS m |}.

Definition lsetup_body (fp : fnptr) (m : CVodeMem unit) (cf : ConvFail)
  : Z * CVodeMem unit :=
  (status_of fp, set_cv_jcur 1 m).

Definition lsolve_body (fp : fnptr) (m : CVodeMem unit) (b : N_Vector)
  : Z * N_Vector * CVodeMem unit :=
  (status_of fp, scale 0.5%float b, m).

(** The heap with one solver, at address 1. *)
Definition heap1 (s : SUNNonlinearSolver_obj content_t) : heap content_t :=
  {[ 1%positive := s ]}.

(** The heap with the installed solver at address 1 and a candidate at
    address 2. *)
Definition heap2 (s : SUNNonlinearSolver_obj content_t) : heap content_t :=
  <[ 2%positive := s ]> (heap1 (solver 0 0)).

(** Dispatchers for [cvNlsInit]: the two setters succeed, the
    initialization returns the given status; none touches the heap. *)
Definition set_lsetup_fn (NLS : SUNNonlinearSolver)
  (fn : option SUNNonlinSolLSetupFn) (h : heap content_t)
  : option (Z * heap content_t) := Some (0, h).
Definition set_lsolve_fn (NLS : SUNNonlinearSolver)
  (fn : option SUNNonlinSolLSolveFn) (h : heap content_t)
  : option (Z * heap content_t) := Some (0, h).
Definition initialize_fn (status : Z) (NLS : SUNNonlinearSolver)
  (h : heap content_t) : option (Z * heap content_t) := Some (status, h).

(** The convergence test on the solver at iteration [m], for an increment
    of norm [del] (one component, weight 1), the stored rate [crate] and
    the value [delp] of the static variable. *)
Definition conv_test (m : Z) (crate del tol delp : realtype)
  : option (retcode * option (CVodeMem unit) * realtype) :=
  cvNlsConvTest (NV := ops) (Some 1%positive) [0%float] [del] tol [1.0%float]
    (Some (mem rhs_two crate None)) (heap1 (solver 0 m)) delp.

End Scenario.

(** ** Reading results *)

Definition retcode_of {A B : Type} (r : option (retcode * A * B))
  : option retcode :=
  (fun x => x.1.1) <$> r.

(** The integrator memory at the return of [cvNlsConvTest]. *)
Definition mem_of {NV : N_VectorOps} {UserData B : Type}
  (r : option (retcode * option (CVodeMem UserData) * B))
  : option (CVodeMem UserData) :=
  r ≫= fun x => x.1.2.

(** The code a system function returns for the status of the right-hand
    side. *)
Definition rhs_retcode (retval : Z) : retcode :=
  if retval <? 0 then CV_RHSFUNC_FAIL
  else if 0 <? retval then RHSFUNC_RECVR
  else CV_SUCCESS.

(** The heap once the solver installed in the integrator, if any, has been
    freed. *)
Definition free_installed {NV : N_VectorOps} {UserData NLSContent : Type}
  (cv_mem : CVodeMem UserData) (h : heap NLSContent) : heap NLSContent :=
  match cv_NLS cv_mem with
  | Some q => delete q h
  | None => h
  end.

(** The solver installed in the integrator, if any, is alive, has a [free]
    operation and is not the candidate at [p]. *)
Definition installed_can_be_freed {NV : N_VectorOps} {UserData NLSContent : Type}
  (cv_mem : CVodeMem UserData) (h : heap NLSContent) (p : loc) : Prop :=
  match cv_NLS cv_mem with
  | Some q =>
      q <> p /\
      exists old release, h !! q = Some old /\ free (ops old) = Some release
  | None => True
  end.

(** What an optional setter of a solver returns on the content [c]: the
    answer of the operation, or success and [c] itself when the operation is
    absent. *)
Definition run_optional {C : Type} (op : option (C -> Z * C)) (c : C) : Z * C :=
  match op with
  | Some f => f c
  | None => (0, c)
  end.

(** * Properties *)

(** [x > x] is false for every [realtype], NaN included. *)
Lemma realtype_ltb_irrefl (x : realtype) : (x <? x)%float = false.
Proof.
  rewrite FloatAxioms.ltb_spec. unfold SFltb, SFcompare.
  destruct (Prim2SF x) as [s | s | | s m e]; try reflexivity.
  - destruct s; reflexivity.
  - destruct s; rewrite Z.compare_refl, ?Pos.compare_cont_refl; simpl;
      rewrite ?Pos.compare_refl; reflexivity.
Qed.

(** [SUNMAX A B] is never below [A]. *)
Lemma SUNMAX_floor (A B : realtype) : (SUNMAX A B <? A)%float = false.
Proof.
  unfold SUNMAX. destruct (B <? A)%float eqn:E.
  - apply realtype_ltb_irrefl.
  - exact E.
Qed.

(** [SUNMIN ONE B] is never above [ONE]. *)
Lemma SUNMIN_ONE_le (B : realtype) : (ONE <? SUNMIN ONE B)%float = false.
Proof.
  unfold SUNMIN. destruct (ONE <? B)%float eqn:E.
  - apply realtype_ltb_irrefl.
  - exact E.
Qed.

(** A number that is not below a positive one is positive. *)
Lemma realtype_pos_of_not_below (a b : realtype) :
  (0 <? a)%float = true -> (b <? a)%float = false ->
  PrimFloat.is_nan b = false -> (0 <? b)%float = true.
Proof.
  unfold PrimFloat.is_nan. rewrite !FloatAxioms.ltb_spec, FloatAxioms.eqb_spec.
  change (Prim2SF 0) with (S754_zero false).
  unfold SFltb, SFeqb, SFcompare.
  destruct (Prim2SF a) as [sa | sa | | sa ma ea];
    destruct (Prim2SF b) as [sb | sb | | sb mb eb];
    try destruct sa; try destruct sb; simpl; congruence.
Qed.

(** [SUNMAX A B] is positive when [A] is and [B] is a number. *)
Lemma SUNMAX_positive (A B : realtype) :
  (0 <? A)%float = true -> PrimFloat.is_nan B = false ->
  (0 <? SUNMAX A B)%float = true.
Proof.
  intros HA HB. unfold SUNMAX. destruct (B <? A)%float eqn:E.
  - exact HA.
  - exact (realtype_pos_of_not_below A B HA E HB).
Qed.

(** [SUNMIN ONE B] is positive when [B] is. *)
Lemma SUNMIN_ONE_positive (B : realtype) :
  (0 <? B)%float = true -> (0 <? SUNMIN ONE B)%float = true.
Proof.
  intros HB. unfold SUNMIN. destruct (ONE <? B)%float; [reflexivity | exact HB].
Qed.

(** NaN: a [realtype] is NaN exactly when its specification is. *)
Lemma SFcompare_refl_not_nan (f : spec_float) :
  f <> S754_nan -> SFcompare f f = Some Eq.
Proof.
  destruct f as [s | s | | s m e]; intros H; try congruence; simpl.
  - reflexivity.
  - destruct s; reflexivity.
  - destruct s; rewrite Z.compare_refl, Pos.compare_cont_refl; reflexivity.
Qed.

Lemma is_nan_Prim2SF (x : realtype) :
  PrimFloat.is_nan x = true -> Prim2SF x = S754_nan.
Proof.
  unfold PrimFloat.is_nan. rewrite FloatAxioms.eqb_spec. unfold SFeqb.
  intros H. destruct (Prim2SF x) as [s | s | | s m e] eqn:E; try reflexivity;
    rewrite SFcompare_refl_not_nan in H by congruence; discriminate.
Qed.

Lemma Prim2SF_is_nan (x : realtype) :
  Prim2SF x = S754_nan -> PrimFloat.is_nan x = true.
Proof.
  unfold PrimFloat.is_nan. rewrite FloatAxioms.eqb_spec. intros ->. reflexivity.
Qed.

(** NaN goes through products and quotients and fails every comparison. *)
Lemma is_nan_mul_l (x y : realtype) :
  PrimFloat.is_nan x = true -> PrimFloat.is_nan (x * y) = true.
Proof.
  intros H. apply Prim2SF_is_nan. rewrite FloatAxioms.mul_spec.
  rewrite (is_nan_Prim2SF x H). reflexivity.
Qed.

Lemma is_nan_div_l (x y : realtype) :
  PrimFloat.is_nan x = true -> PrimFloat.is_nan (x / y) = true.
Proof.
  intros H. apply Prim2SF_is_nan. rewrite FloatAxioms.div_spec.
  rewrite (is_nan_Prim2SF x H). reflexivity.
Qed.

Lemma is_nan_div_r (x y : realtype) :
  PrimFloat.is_nan y = true -> PrimFloat.is_nan (x / y) = true.
Proof.
  intros H. apply Prim2SF_is_nan. rewrite FloatAxioms.div_spec.
  rewrite (is_nan_Prim2SF y H). destruct (Prim2SF x); reflexivity.
Qed.

Lemma nan_leb_l (x y : realtype) :
  PrimFloat.is_nan x = true -> (x <=? y)%float = false.
Proof.
  intros H. rewrite FloatAxioms.leb_spec, (is_nan_Prim2SF x H). reflexivity.
Qed.

Lemma nan_ltb_r (x y : realtype) :
  PrimFloat.is_nan y = true -> (x <? y)%float = false.
Proof.
  intros H. rewrite FloatAxioms.ltb_spec, (is_nan_Prim2SF y H).
  unfold SFltb. destruct (Prim2SF x); reflexivity.
Qed.

Section Properties.

Context {NV : N_VectorOps} {UserData NLSContent : Type}.

Implicit Types (cv_mem : CVodeMem UserData) (h : heap NLSContent).
Implicit Types (NLS : SUNNonlinearSolver) (ycor delta ewt res : N_Vector).
Implicit Types (tol delp : realtype) (m : Z).

(** *** The convergence test *)

(** The test as one case distinction, once the iteration count is known. *)
Lemma cvNlsConvTest_unfold NLS ycor delta tol ewt cv_mem h delp m :
  SUNNonlinSolGetCurIter NLS h = Some (0, m) ->
  let del := N_VWrmsNorm delta ewt in
  let cv_mem1 :=
    if 0 <? m
    then set_cv_crate (SUNMAX (CRDOWN * cv_crate cv_mem) (del / delp))%float cv_mem
    else cv_mem in
  cvNlsConvTest NLS ycor delta tol ewt (Some cv_mem) h delp =
  if (del * SUNMIN ONE (cv_crate cv_mem1) / tol <=? ONE)%float then
    Some (CV_SUCCESS,
          Some (set_cv_acnrm
                  (if m =? 0 then del else N_VWrmsNorm ycor (cv_ewt cv_mem1))
                  cv_mem1), delp)
  else if (1 <=? m) && (RDIV * delp <? del)%float
  then Some (SUN_NLS_CONV_RECVR, Some cv_mem1, delp)
  else Some (SUN_NLS_CONTINUE, Some cv_mem1, del).
Proof.
  intros Hm del cv_mem1. unfold cvNlsConvTest. rewrite Hm. reflexivity.
Qed.

(** C1 (amended). For an iteration index [m >= 1] at which the norm [del]
    of the increment exceeds [RDIV = 2] times the previous norm [delp], the
    convergence test answers by the value of [dcon = del * min(1, crate) /
    tol], [crate] being already updated to [max(0.3 * crate, del / delp)]:
    it reports [CV_SUCCESS] when [dcon <= 1] and the recoverable divergence
    [SUN_NLS_CONV_RECVR] otherwise. The answer depends on the tolerance. *)
Theorem cvNlsConvTest_diverged_unless_converged
  NLS ycor delta tol ewt cv_mem h delp m :
  SUNNonlinSolGetCurIter NLS h = Some (0, m) ->
  1 <= m ->
  let del := N_VWrmsNorm delta ewt in
  (RDIV * delp <? del)%float = true ->
  let crate := (SUNMAX (CRDOWN * cv_crate cv_mem) (del / delp))%float in
  let dcon := (del * SUNMIN ONE crate / tol)%float in
  retcode_of (cvNlsConvTest NLS ycor delta tol ewt (Some cv_mem) h delp) =
  Some (if (dcon <=? ONE)%float then CV_SUCCESS else SUN_NLS_CONV_RECVR).
Proof.
  intros Hm Hge del Hdiv crate dcon.
  rewrite (cvNlsConvTest_unfold _ ycor delta tol ewt cv_mem _ delp _ Hm).
  replace (0 <? m) with true by (symmetry; apply Z.ltb_lt; lia).
  replace (1 <=? m) with true by (symmetry; apply Z.leb_le; lia).
  fold del. rewrite Hdiv. simpl. fold crate. fold dcon.
  destruct (dcon <=? ONE)%float; reflexivity.
Qed.

(** C2 (amended). The convergence test changes [crate] only when the
    iteration index is read successfully and [m > 0], and then to
    [max(CRDOWN * crate, del / delp)]. That value is never below the decay
    floor [CRDOWN * crate], it is positive when the floor is positive and
    [del / delp] is a number, and it may exceed 1. What lies in (0, 1] is
    the factor [min(1, crate)] that enters [dcon]: it never exceeds 1, and
    it is positive when the updated [crate] is. *)
Theorem cvNlsConvTest_crate_update
  NLS ycor delta tol ewt cv_mem h delp retval m :
  SUNNonlinSolGetCurIter NLS h = Some (retval, m) ->
  let del := N_VWrmsNorm delta ewt in
  let updated := is_success retval && (0 <? m) in
  let floor := (CRDOWN * cv_crate cv_mem)%float in
  exists cv_mem',
    mem_of (cvNlsConvTest NLS ycor delta tol ewt (Some cv_mem) h delp)
      = Some cv_mem' /\
    cv_crate cv_mem' =
      (if updated then SUNMAX floor (del / delp) else cv_crate cv_mem) /\
    (updated = true -> (cv_crate cv_mem' <? floor)%float = false) /\
    (updated = true -> (0 <? floor)%float = true ->
     PrimFloat.is_nan (del / delp) = false ->
     (0 <? cv_crate cv_mem')%float = true /\
     (0 <? SUNMIN ONE (cv_crate cv_mem'))%float = true) /\
    (ONE <? SUNMIN ONE (cv_crate cv_mem'))%float = false.
Proof.
  intros Hm del updated floor.
  assert (Hmem : exists acnrm,
    mem_of (cvNlsConvTest NLS ycor delta tol ewt (Some cv_mem) h delp) =
    Some (acnrm (if updated
                 then set_cv_crate (SUNMAX floor (del / delp)) cv_mem
                 else cv_mem)) /\
    forall x, cv_crate (acnrm x) = cv_crate x).
  { unfold cvNlsConvTest, mem_of, updated. rewrite Hm. simpl. fold del floor.
    destruct (is_success retval); simpl.
    - repeat match goal with
             | |- context [if ?b then Some _ else _] => destruct b; simpl
             end;
        first [ (eexists (set_cv_acnrm _)); split; reflexivity
              | exists (fun x => x); split; reflexivity ].
    - exists (fun x => x). split; reflexivity. }
  destruct Hmem as (acnrm & -> & Hcrate).
  eexists. split; [reflexivity|]. rewrite Hcrate.
  destruct updated; simpl.
  - split; [reflexivity|]. split; [intros _; apply SUNMAX_floor|].
    split; [|apply SUNMIN_ONE_le].
    intros _ Hpos Hnan.
    assert (Hc := SUNMAX_positive floor (del / delp) Hpos Hnan).
    split; [exact Hc | apply SUNMIN_ONE_positive; exact Hc].
  - split; [reflexivity|]. split; [discriminate|].
    split; [discriminate | apply SUNMIN_ONE_le].
Qed.

(** C3 (amended). At the iteration index [m = 0] the convergence test does
    not read [delp]: its return code and the memory it leaves are the same
    for every value of [delp], which is handed back unchanged on success
    and overwritten with [del] otherwise. The decision compares [dcon = del *
    min(1, crate) / tol] with 1, [crate] being the rate stored in the
    integrator memory; [dcon] is [del * 1 / tol] when that stored rate
    is 1. *)
Theorem cvNlsConvTest_first_iteration NLS ycor delta tol ewt cv_mem h :
  SUNNonlinSolGetCurIter NLS h = Some (0, 0) ->
  let del := N_VWrmsNorm delta ewt in
  let dcon := (del * SUNMIN ONE (cv_crate cv_mem) / tol)%float in
  (forall delp,
     cvNlsConvTest NLS ycor delta tol ewt (Some cv_mem) h delp =
     if (dcon <=? ONE)%float
     then Some (CV_SUCCESS, Some (set_cv_acnrm del cv_mem), delp)
     else Some (SUN_NLS_CONTINUE, Some cv_mem, del)) /\
  (forall delp1 delp2,
     retcode_of (cvNlsConvTest NLS ycor delta tol ewt (Some cv_mem) h delp1) =
     retcode_of (cvNlsConvTest NLS ycor delta tol ewt (Some cv_mem) h delp2) /\
     mem_of (cvNlsConvTest NLS ycor delta tol ewt (Some cv_mem) h delp1) =
     mem_of (cvNlsConvTest NLS ycor delta tol ewt (Some cv_mem) h delp2)) /\
  (cv_crate cv_mem = ONE -> dcon = (del * ONE / tol)%float).
Proof.
  intros Hm del dcon.
  assert (E : forall delp,
     cvNlsConvTest NLS ycor delta tol ewt (Some cv_mem) h delp =
     if (dcon <=? ONE)%float
     then Some (CV_SUCCESS, Some (set_cv_acnrm del cv_mem), delp)
     else Some (SUN_NLS_CONTINUE, Some cv_mem, del)).
  { intros delp.
    rewrite (cvNlsConvTest_unfold _ ycor delta tol ewt cv_mem _ delp _ Hm).
    reflexivity. }
  split; [exact E|]. split.
  - intros delp1 delp2. rewrite !E.
    destruct (dcon <=? ONE)%float; split; reflexivity.
  - intros Hc. unfold dcon. rewrite Hc. reflexivity.
Qed.

(** *** The system functions *)

(** [cvNlsResidual] as one case distinction on the status of the right-hand
    side, which is evaluated at the updated state. *)
Lemma cvNlsResidual_unfold ycor res cv_mem retval ftemp ud :
  let y := N_VLinearSum ONE (cv_zn cv_mem 0%nat) ONE ycor in
  cv_f cv_mem (cv_tn cv_mem) y (cv_ftemp cv_mem) (cv_user_data cv_mem)
    = (retval, ftemp, ud) ->
  cv_nfe cv_mem < LONG_MAX ->
  let cv_mem' :=
    set_cv_nfe (cv_nfe cv_mem + 1)
      (set_cv_user_data ud (set_cv_ftemp ftemp (set_cv_y y cv_mem))) in
  cvNlsResidual ycor res (Some cv_mem) =
  if retval <? 0 then Some (CV_RHSFUNC_FAIL, res, Some cv_mem')
  else if 0 <? retval then Some (RHSFUNC_RECVR, res, Some cv_mem')
  else Some (CV_SUCCESS,
             N_VLinearSum (- cv_gamma cv_mem)%float ftemp ONE
               (N_VLinearSum (cv_rl1 cv_mem) (cv_zn cv_mem 1%nat) ONE ycor),
             Some cv_mem').
Proof.
  intros y Hf Hnfe cv_mem'. subst y cv_mem'.
  apply Z.ltb_lt in Hnfe.
  unfold cvNlsResidual, long_incr. simpl. rewrite Hf. simpl.
  rewrite Hnfe. reflexivity.
Qed.

(** [cvNlsFPFunction] likewise; the right-hand side writes into [res]. *)
Lemma cvNlsFPFunction_unfold ycor res cv_mem retval rhs ud :
  let y := N_VLinearSum ONE (cv_zn cv_mem 0%nat) ONE ycor in
  cv_f cv_mem (cv_tn cv_mem) y res (cv_user_data cv_mem) = (retval, rhs, ud) ->
  cv_nfe cv_mem < LONG_MAX ->
  let cv_mem' :=
    set_cv_nfe (cv_nfe cv_mem + 1) (set_cv_user_data ud (set_cv_y y cv_mem)) in
  cvNlsFPFunction ycor res (Some cv_mem) =
  if retval <? 0 then Some (CV_RHSFUNC_FAIL, rhs, Some cv_mem')
  else if 0 <? retval then Some (RHSFUNC_RECVR, rhs, Some cv_mem')
  else Some (CV_SUCCESS,
             N_VScale (cv_rl1 cv_mem)
               (N_VLinearSum (cv_h cv_mem) rhs (- ONE)%float
                  (cv_zn cv_mem 1%nat)),
             Some cv_mem').
Proof.
  intros y Hf Hnfe cv_mem'. subst y cv_mem'.
  apply Z.ltb_lt in Hnfe.
  unfold cvNlsFPFunction, long_incr. simpl. rewrite Hf. simpl.
  rewrite Hnfe. reflexivity.
Qed.

(** The residual after a successful right-hand side, for every vector
    type: the state is the predictor plus the correction and the residual is
    the linear combination of section 4.1. *)
Lemma cvNlsResidual_success ycor res cv_mem rhsOutput ud :
  let y := N_VLinearSum ONE (cv_zn cv_mem 0%nat) ONE ycor in
  cv_f cv_mem (cv_tn cv_mem) y (cv_ftemp cv_mem) (cv_user_data cv_mem)
    = (0, rhsOutput, ud) ->
  cv_nfe cv_mem < LONG_MAX ->
  exists cv_mem',
    cvNlsResidual ycor res (Some cv_mem) =
    Some (CV_SUCCESS,
          N_VLinearSum (- cv_gamma cv_mem)%float rhsOutput ONE
            (N_VLinearSum (cv_rl1 cv_mem) (cv_zn cv_mem 1%nat) ONE ycor),
          Some cv_mem') /\
    cv_y cv_mem' = y /\
    cv_ftemp cv_mem' = rhsOutput /\
    cv_nfe cv_mem' = cv_nfe cv_mem + 1.
Proof.
  intros y Hf Hnfe.
  rewrite (cvNlsResidual_unfold ycor res cv_mem 0 rhsOutput ud Hf Hnfe).
  simpl. eexists. split; [reflexivity|]. simpl. auto.
Qed.

(** C5. When the right-hand side returns status 0, [cvNlsFPFunction] sets
    the current solution to [zn[0] + ycor] and returns in [res] the vector
    [rl1 * (h * rhsOutput - zn[1])], computed as the code does: the linear
    sum of [rhsOutput] with coefficient [h] and of [zn[1]] with coefficient
    [-ONE], scaled by [rl1]. *)
Theorem cvNlsFPFunction_success ycor res cv_mem rhsOutput ud :
  let y := N_VLinearSum ONE (cv_zn cv_mem 0%nat) ONE ycor in
  cv_f cv_mem (cv_tn cv_mem) y res (cv_user_data cv_mem) = (0, rhsOutput, ud) ->
  cv_nfe cv_mem < LONG_MAX ->
  exists cv_mem',
    cvNlsFPFunction ycor res (Some cv_mem) =
    Some (CV_SUCCESS,
          N_VScale (cv_rl1 cv_mem)
            (N_VLinearSum (cv_h cv_mem) rhsOutput (- ONE)%float
               (cv_zn cv_mem 1%nat)),
          Some cv_mem') /\
    cv_y cv_mem' = y.
Proof.
  intros y Hf Hnfe.
  rewrite (cvNlsFPFunction_unfold ycor res cv_mem 0 rhsOutput ud Hf Hnfe).
  simpl. eexists. split; reflexivity.
Qed.

(** C6. A call of [cvNlsResidual] or of [cvNlsFPFunction] with a non-null
    integrator memory evaluates the right-hand side and leaves [cv_nfe]
    larger by exactly 1, whatever status the right-hand side returned:
    success, a recoverable failure (positive) or a fatal one (negative). *)
Theorem system_functions_count_rhs_evaluation ycor res cv_mem :
  cv_nfe cv_mem < LONG_MAX ->
  let y := N_VLinearSum ONE (cv_zn cv_mem 0%nat) ONE ycor in
  (exists res' cv_mem',
     cvNlsResidual ycor res (Some cv_mem) =
     Some (rhs_retcode
             (cv_f cv_mem (cv_tn cv_mem) y (cv_ftemp cv_mem)
                (cv_user_data cv_mem)).1.1,
           res', Some cv_mem') /\
     cv_nfe cv_mem' = cv_nfe cv_mem + 1) /\
  (exists res' cv_mem',
     cvNlsFPFunction ycor res (Some cv_mem) =
     Some (rhs_retcode
             (cv_f cv_mem (cv_tn cv_mem) y res (cv_user_data cv_mem)).1.1,
           res', Some cv_mem') /\
     cv_nfe cv_mem' = cv_nfe cv_mem + 1).
Proof.
  intros Hnfe y. split.
  - destruct (cv_f cv_mem (cv_tn cv_mem) y (cv_ftemp cv_mem)
                (cv_user_data cv_mem)) as [[retval ftemp] ud] eqn:Hf.
    rewrite (cvNlsResidual_unfold ycor res cv_mem retval ftemp ud Hf Hnfe).
    unfold rhs_retcode. simpl.
    destruct (retval <? 0); [|destruct (0 <? retval)];
      (eexists; eexists; split; [reflexivity|reflexivity]).
  - destruct (cv_f cv_mem (cv_tn cv_mem) y res (cv_user_data cv_mem))
      as [[retval rhs] ud] eqn:Hf.
    rewrite (cvNlsFPFunction_unfold ycor res cv_mem retval rhs ud Hf Hnfe).
    unfold rhs_retcode. simpl.
    destruct (retval <? 0); [|destruct (0 <? retval)];
      (eexists; eexists; split; [reflexivity|reflexivity]).
Qed.

(** C9. Both system functions store [zn[0] + ycor] in [cv_y] before they
    evaluate the right-hand side, at that very state. When the right-hand
    side reports a failure, recoverable or fatal, they return the failure
    code and [cv_y] holds [zn[0] + ycor], whatever it held at the call: the
    failing call has changed the integrator memory. *)
Theorem system_functions_update_state_before_failure
  ycor res cv_mem retval1 ftemp ud1 retval2 rhs ud2 :
  let y := N_VLinearSum ONE (cv_zn cv_mem 0%nat) ONE ycor in
  cv_f cv_mem (cv_tn cv_mem) y (cv_ftemp cv_mem) (cv_user_data cv_mem)
    = (retval1, ftemp, ud1) ->
  cv_f cv_mem (cv_tn cv_mem) y res (cv_user_data cv_mem)
    = (retval2, rhs, ud2) ->
  retval1 <> 0 -> retval2 <> 0 ->
  cv_nfe cv_mem < LONG_MAX ->
  (exists cv_mem',
     cvNlsResidual ycor res (Some cv_mem) =
     Some (if retval1 <? 0 then CV_RHSFUNC_FAIL else RHSFUNC_RECVR,
           res, Some cv_mem') /\
     cv_y cv_mem' = y) /\
  (exists cv_mem',
     cvNlsFPFunction ycor res (Some cv_mem) =
     Some (if retval2 <? 0 then CV_RHSFUNC_FAIL else RHSFUNC_RECVR,
           rhs, Some cv_mem') /\
     cv_y cv_mem' = y).
Proof.
  intros y Hf1 Hf2 Hr1 Hr2 Hnfe. split.
  - rewrite (cvNlsResidual_unfold ycor res cv_mem retval1 ftemp ud1 Hf1 Hnfe).
    simpl. destruct (retval1 <? 0) eqn:E1.
    + eexists. split; reflexivity.
    + replace (0 <? retval1) with true
        by (symmetry; apply Z.ltb_lt; apply Z.ltb_ge in E1; lia).
      eexists. split; reflexivity.
  - rewrite (cvNlsFPFunction_unfold ycor res cv_mem retval2 rhs ud2 Hf2 Hnfe).
    simpl. destruct (retval2 <? 0) eqn:E2.
    + eexists. split; reflexivity.
    + replace (0 <? retval2) with true
        by (symmetry; apply Z.ltb_lt; apply Z.ltb_ge in E2; lia).
      eexists. split; reflexivity.
Qed.

(** *** The linear solver wrappers *)

Variable lsetup_body :
  fnptr -> CVodeMem UserData -> ConvFail -> Z * CVodeMem UserData.
Variable lsolve_body :
  fnptr -> CVodeMem UserData -> N_Vector -> Z * N_Vector * CVodeMem UserData.

(** [cvNlsLSetup] once the setup routine has returned [retval] and left
    the memory [mem1]. *)
Lemma cvNlsLSetup_unfold ycor res jbad jcur cv_mem ls retval mem1 :
  cv_lsetup cv_mem = Some ls ->
  let cv_mem0 :=
    if negb (jbad =? 0) then set_convfail CV_FAIL_BAD_J cv_mem else cv_mem in
  lsetup_body ls cv_mem0 (convfail cv_mem0) = (retval, mem1) ->
  cv_nsetups mem1 < LONG_MAX ->
  let cv_mem' :=
    set_cv_nstlp (cv_nst mem1)
      (set_cv_gammap (cv_gamma mem1)
         (set_cv_gamrat ONE
            (set_cv_crate ONE (set_cv_nsetups (cv_nsetups mem1 + 1) mem1)))) in
  cvNlsLSetup lsetup_body ycor res jbad jcur (Some cv_mem) =
  Some (if retval <? 0 then CV_LSETUP_FAIL
        else if 0 <? retval then SUN_NLS_CONV_RECVR else CV_SUCCESS,
        cv_jcur mem1, Some cv_mem').
Proof.
  intros Hls cv_mem0 Hcall Hn cv_mem'. subst cv_mem'.
  apply Z.ltb_lt in Hn.
  assert (Hls0 : cv_lsetup cv_mem0 = Some ls).
  { subst cv_mem0. destruct (negb (jbad =? 0)); [simpl|]; exact Hls. }
  unfold cvNlsLSetup, long_incr. fold cv_mem0. rewrite Hls0. simpl.
  rewrite Hcall. rewrite Hn. simpl.
  destruct (retval <? 0); [|destruct (0 <? retval)]; reflexivity.
Qed.

Lemma cvNlsLSolve_unfold ycor delta cv_mem lv retval delta' mem1 :
  cv_lsolve cv_mem = Some lv ->
  lsolve_body lv cv_mem delta = (retval, delta', mem1) ->
  cvNlsLSolve lsolve_body ycor delta (Some cv_mem) =
  Some (if retval <? 0 then CV_LSOLVE_FAIL
        else if 0 <? retval then SUN_NLS_CONV_RECVR else CV_SUCCESS,
        delta', Some mem1).
Proof.
  intros Hlv Hcall. unfold cvNlsLSolve. rewrite Hlv. simpl. rewrite Hcall.
  destruct (retval <? 0); [|destruct (0 <? retval)]; reflexivity.
Qed.

(** C7. [cvNlsLSetup] and [cvNlsLSolve] map the return value of the routine
    they call: a negative value gives [CV_LSETUP_FAIL], respectively
    [CV_LSOLVE_FAIL], a positive value gives [SUN_NLS_CONV_RECVR], and zero
    gives [CV_SUCCESS]. Each wrapper needs its own routine only: the solve
    wrapper maps the codes also on an integrator without setup routine. *)
Theorem linear_wrappers_return_codes :
  (forall ycor res jbad jcur cv_mem ls retval mem1,
     cv_lsetup cv_mem = Some ls ->
     let cv_mem0 :=
       if negb (jbad =? 0) then set_convfail CV_FAIL_BAD_J cv_mem else cv_mem in
     lsetup_body ls cv_mem0 (convfail cv_mem0) = (retval, mem1) ->
     cv_nsetups mem1 < LONG_MAX ->
     let setup :=
       retcode_of (cvNlsLSetup lsetup_body ycor res jbad jcur (Some cv_mem)) in
     (retval < 0 -> setup = Some CV_LSETUP_FAIL) /\
     (0 < retval -> setup = Some SUN_NLS_CONV_RECVR) /\
     (retval = 0 -> setup = Some CV_SUCCESS)) /\
  (forall ycor delta cv_mem lv retval delta' mem2,
     cv_lsolve cv_mem = Some lv ->
     lsolve_body lv cv_mem delta = (retval, delta', mem2) ->
     let solve :=
       retcode_of (cvNlsLSolve lsolve_body ycor delta (Some cv_mem)) in
     (retval < 0 -> solve = Some CV_LSOLVE_FAIL) /\
     (0 < retval -> solve = Some SUN_NLS_CONV_RECVR) /\
     (retval = 0 -> solve = Some CV_SUCCESS)).
Proof.
  split.
  - intros ycor res jbad jcur cv_mem ls retval mem1 Hls cv_mem0 Hsetup Hn setup.
    subst setup.
    rewrite (cvNlsLSetup_unfold ycor res jbad jcur cv_mem ls retval mem1
               Hls Hsetup Hn).
    unfold retcode_of. simpl.
    repeat split; intros H;
      repeat match goal with
             | |- context [?a <? ?b] =>
                 destruct (Z.ltb_spec a b); try lia
             end; reflexivity.
  - intros ycor delta cv_mem lv retval delta' mem2 Hlv Hsolve solve.
    subst solve.
    rewrite (cvNlsLSolve_unfold ycor delta cv_mem lv retval delta' mem2
               Hlv Hsolve).
    unfold retcode_of. simpl.
    repeat split; intros H;
      repeat match goal with
             | |- context [?a <? ?b] =>
                 destruct (Z.ltb_spec a b); try lia
             end; reflexivity.
Qed.

(** C8. Whenever [cvNlsLSetup] is called with a non-null integrator memory,
    and whatever the setup routine returned, at the return [cv_nsetups] is
    one more than the routine left it, [*jcur] holds the routine's
    [cv_jcur], [cv_gamrat] and [cv_crate] are [ONE], [cv_gammap] is the
    current [cv_gamma] and [cv_nstlp] the current [cv_nst]. *)
Theorem cvNlsLSetup_bookkeeping ycor res jbad jcur cv_mem ls retval mem1 :
  cv_lsetup cv_mem = Some ls ->
  let cv_mem0 :=
    if negb (jbad =? 0) then set_convfail CV_FAIL_BAD_J cv_mem else cv_mem in
  lsetup_body ls cv_mem0 (convfail cv_mem0) = (retval, mem1) ->
  cv_nsetups mem1 < LONG_MAX ->
  exists code jcur' cv_mem',
    cvNlsLSetup lsetup_body ycor res jbad jcur (Some cv_mem)
      = Some (code, jcur', Some cv_mem') /\
    cv_nsetups cv_mem' = cv_nsetups mem1 + 1 /\
    (cv_nsetups mem1 = cv_nsetups cv_mem ->
     cv_nsetups cv_mem' = cv_nsetups cv_mem + 1) /\
    jcur' = cv_jcur mem1 /\ cv_jcur cv_mem' = cv_jcur mem1 /\
    cv_gamrat cv_mem' = ONE /\ cv_crate cv_mem' = ONE /\
    cv_gammap cv_mem' = cv_gamma cv_mem' /\ cv_gamma cv_mem' = cv_gamma mem1 /\
    cv_nstlp cv_mem' = cv_nst cv_mem' /\ cv_nst cv_mem' = cv_nst mem1.
Proof.
  intros Hls cv_mem0 Hsetup Hn.
  rewrite (cvNlsLSetup_unfold ycor res jbad jcur cv_mem ls retval mem1
             Hls Hsetup Hn).
  do 3 eexists. split; [reflexivity|]. simpl.
  repeat split; try reflexivity. intros <-. reflexivity.
Qed.

(** *** Registration *)



(** *** Further properties of the convergence test *)

(** Every way out of the test with a non-null memory, once the solver has
    answered the query for the iteration count. *)
Lemma cvNlsConvTest_cases NLS ycor delta tol ewt cv_mem h delp retval m :
  SUNNonlinSolGetCurIter NLS h = Some (retval, m) ->
  let del := N_VWrmsNorm delta ewt in
  let cv_mem1 :=
    if 0 <? m
    then set_cv_crate (SUNMAX (CRDOWN * cv_crate cv_mem) (del / delp))%float cv_mem
    else cv_mem in
  let acnrm := if m =? 0 then del else N_VWrmsNorm ycor (cv_ewt cv_mem) in
  let r := cvNlsConvTest NLS ycor delta tol ewt (Some cv_mem) h delp in
  r = Some (CV_MEM_NULL, Some cv_mem, delp) \/
  r = Some (CV_SUCCESS, Some (set_cv_acnrm acnrm cv_mem1), delp) \/
  r = Some (SUN_NLS_CONV_RECVR, Some cv_mem1, delp) \/
  r = Some (SUN_NLS_CONTINUE, Some cv_mem1, del).
Proof.
  intros Hm del cv_mem1 acnrm r. subst r. unfold cvNlsConvTest.
  rewrite Hm. simpl. fold del.
  destruct (is_success retval); simpl; [|left; reflexivity].
  fold cv_mem1.
  replace (cv_ewt cv_mem1) with (cv_ewt cv_mem)
    by (subst cv_mem1; destruct (0 <? m); reflexivity).
  fold acnrm.
  destruct (del * SUNMIN ONE (cv_crate cv_mem1) / tol <=? ONE)%float;
    [right; left; reflexivity|].
  destruct ((1 <=? m) && (RDIV * delp <? del)%float);
    [right; right; left | right; right; right]; reflexivity.
Qed.

(** X1. With [dcon > 1] and no divergence ([m < 1], or [del] not above
    [RDIV * delp]) the test answers [SUN_NLS_CONTINUE], keeps the memory
    with the updated [crate] and saves [del] in [delp]. *)
Theorem cvNlsConvTest_continue NLS ycor delta tol ewt cv_mem h delp m :
  SUNNonlinSolGetCurIter NLS h = Some (0, m) ->
  let del := N_VWrmsNorm delta ewt in
  let cv_mem1 :=
    if 0 <? m
    then set_cv_crate (SUNMAX (CRDOWN * cv_crate cv_mem) (del / delp))%float cv_mem
    else cv_mem in
  (del * SUNMIN ONE (cv_crate cv_mem1) / tol <=? ONE)%float = false ->
  (1 <= m -> (RDIV * delp <? del)%float = false) ->
  cvNlsConvTest NLS ycor delta tol ewt (Some cv_mem) h delp
    = Some (SUN_NLS_CONTINUE, Some cv_mem1, del).
Proof.
  intros Hm del cv_mem1 Hdcon Hdiv.
  rewrite (cvNlsConvTest_unfold _ ycor delta tol ewt cv_mem _ delp _ Hm).
  fold del cv_mem1. rewrite Hdcon.
  destruct (Z.leb_spec 1 m) as [Hle | Hlt]; simpl; [|reflexivity].
  rewrite (Hdiv Hle). reflexivity.
Qed.

(** X2. What the test writes besides [crate]: [delp] is overwritten, with
    [del], exactly when the answer is [SUN_NLS_CONTINUE], and [cv_acnrm]
    exactly when it is [CV_SUCCESS], with [del] at [m = 0] and otherwise
    with the norm of [ycor] under the integrator's own [cv_ewt], not under
    the argument [ewt]. *)
Theorem cvNlsConvTest_writes NLS ycor delta tol ewt cv_mem h delp retval m :
  SUNNonlinSolGetCurIter NLS h = Some (retval, m) ->
  let del := N_VWrmsNorm delta ewt in
  exists code cv_mem' delp',
    cvNlsConvTest NLS ycor delta tol ewt (Some cv_mem) h delp
      = Some (code, Some cv_mem', delp') /\
    delp' = match code with SUN_NLS_CONTINUE => del | _ => delp end /\
    cv_acnrm cv_mem' =
      match code with
      | CV_SUCCESS => if m =? 0 then del else N_VWrmsNorm ycor (cv_ewt cv_mem)
      | _ => cv_acnrm cv_mem
      end.
Proof.
  intros Hm del.
  destruct (cvNlsConvTest_cases NLS ycor delta tol ewt cv_mem h delp retval m Hm)
    as [H | [H | [H | H]]];
    rewrite H; do 3 eexists; (split; [reflexivity|]); split;
    try reflexivity; destruct (0 <? m); reflexivity.
Qed.

(** X3. The test leaves every field of the integrator memory other than
    [cv_crate] and [cv_acnrm] as it found it: the memories at the call and
    at the return are equal once these two fields are overwritten. *)
Theorem cvNlsConvTest_frame NLS ycor delta tol ewt cv_mem h delp retval m :
  SUNNonlinSolGetCurIter NLS h = Some (retval, m) ->
  exists code cv_mem' delp',
    cvNlsConvTest NLS ycor delta tol ewt (Some cv_mem) h delp
      = Some (code, Some cv_mem', delp') /\
    forall crate acnrm,
      set_cv_acnrm acnrm (set_cv_crate crate cv_mem')
      = set_cv_acnrm acnrm (set_cv_crate crate cv_mem).
Proof.
  intros Hm.
  destruct (cvNlsConvTest_cases NLS ycor delta tol ewt cv_mem h delp retval m Hm)
    as [H | [H | [H | H]]];
    rewrite H; do 3 eexists; (split; [reflexivity|]); intros crate acnrm;
    try reflexivity; destruct (0 <? m); reflexivity.
Qed.

(** X4. A norm [del] that is NaN is neither a convergence nor a divergence:
    the test answers [SUN_NLS_CONTINUE] and saves the NaN in [delp]. A
    tolerance that is NaN never gives [CV_SUCCESS]. *)
Theorem cvNlsConvTest_nan NLS ycor delta tol ewt cv_mem h delp m :
  SUNNonlinSolGetCurIter NLS h = Some (0, m) ->
  let del := N_VWrmsNorm delta ewt in
  (PrimFloat.is_nan del = true ->
   exists cv_mem',
     cvNlsConvTest NLS ycor delta tol ewt (Some cv_mem) h delp
       = Some (SUN_NLS_CONTINUE, Some cv_mem', del)) /\
  (PrimFloat.is_nan tol = true ->
   retcode_of (cvNlsConvTest NLS ycor delta tol ewt (Some cv_mem) h delp)
     = Some SUN_NLS_CONV_RECVR \/
   retcode_of (cvNlsConvTest NLS ycor delta tol ewt (Some cv_mem) h delp)
     = Some SUN_NLS_CONTINUE).
Proof.
  intros Hm del.
  rewrite (cvNlsConvTest_unfold _ ycor delta tol ewt cv_mem _ delp _ Hm).
  fold del. split.
  - intros Hnan.
    rewrite (nan_leb_l _ ONE (is_nan_div_l _ tol (is_nan_mul_l del _ Hnan))).
    rewrite (nan_ltb_r (RDIV * delp) del Hnan), andb_false_r.
    eexists; reflexivity.
  - intros Hnan. rewrite (nan_leb_l _ ONE (is_nan_div_r _ tol Hnan)).
    destruct ((1 <=? m) && (RDIV * delp <? del)%float);
      [left | right]; reflexivity.
Qed.

(** X5. The norm saved by a test that answered [SUN_NLS_CONTINUE] is the
    previous norm of whichever test comes next at [m >= 1], on the same
    integrator or on another: [delp] belongs to the function, not to an
    integrator. The later test puts [max(CRDOWN * crate, del2 / del1)] in
    the [crate] of its own integrator, and reports a divergence only if
    [del2 > RDIV * del1]. *)
Theorem cvNlsConvTest_carries_previous_norm
  NLS1 ycor1 delta1 tol1 ewt1 (cv_memA : CVodeMem UserData) h1 delp0 cv_memA' delp1
  NLS2 ycor2 delta2 tol2 ewt2 (cv_memB : CVodeMem UserData) h2 m2 :
  cvNlsConvTest NLS1 ycor1 delta1 tol1 ewt1 (Some cv_memA) h1 delp0
    = Some (SUN_NLS_CONTINUE, cv_memA', delp1) ->
  SUNNonlinSolGetCurIter NLS2 h2 = Some (0, m2) ->
  1 <= m2 ->
  let del1 := N_VWrmsNorm delta1 ewt1 in
  let del2 := N_VWrmsNorm delta2 ewt2 in
  delp1 = del1 /\
  exists code cv_memB' delp2,
    cvNlsConvTest NLS2 ycor2 delta2 tol2 ewt2 (Some cv_memB) h2 delp1
      = Some (code, Some cv_memB', delp2) /\
    cv_crate cv_memB' = SUNMAX (CRDOWN * cv_crate cv_memB) (del2 / del1) /\
    (code = SUN_NLS_CONV_RECVR -> (RDIV * del1 <? del2)%float = true).
Proof.
  intros H1 Hm2 Hge del1 del2.
  assert (Hdelp : delp1 = del1).
  { destruct (SUNNonlinSolGetCurIter NLS1 h1) as [[retval m1]|] eqn:Hm1.
    - destruct (cvNlsConvTest_cases NLS1 ycor1 delta1 tol1 ewt1 cv_memA h1
                  delp0 retval m1 Hm1) as [H | [H | [H | H]]];
        rewrite H in H1; inversion H1; reflexivity.
    - unfold cvNlsConvTest in H1. rewrite Hm1 in H1. discriminate. }
  split; [exact Hdelp|]. subst delp1.
  rewrite (cvNlsConvTest_unfold _ ycor2 delta2 tol2 ewt2 cv_memB _ del1 _ Hm2).
  replace (0 <? m2) with true by (symmetry; apply Z.ltb_lt; lia).
  replace (1 <=? m2) with true by (symmetry; apply Z.leb_le; lia).
  fold del2. simpl.
  destruct (del2 * SUNMIN ONE (SUNMAX (CRDOWN * cv_crate cv_memB) (del2 / del1))
            / tol2 <=? ONE)%float.
  - do 3 eexists. split; [reflexivity|]. split; [reflexivity|]. discriminate.
  - destruct (RDIV * del1 <? del2)%float eqn:Hdiv;
      do 3 eexists; (split; [reflexivity|]); (split; [reflexivity|]);
      [reflexivity | discriminate].
Qed.

(** *** Further properties of the system functions *)

(** X6. Besides its result [res], [cvNlsResidual] writes the fields [cv_y],
    [cv_ftemp], [cv_user_data] and [cv_nfe] of the integrator memory and no
    other; [cvNlsFPFunction] writes [cv_y], [cv_user_data] and [cv_nfe] and
    no other: it leaves [cv_ftemp] alone. *)
Theorem system_functions_frame ycor res cv_mem :
  cv_nfe cv_mem < LONG_MAX ->
  (exists code res' cv_mem',
     cvNlsResidual ycor res (Some cv_mem) = Some (code, res', Some cv_mem') /\
     forall y ftemp ud nfe,
       set_cv_nfe nfe (set_cv_user_data ud (set_cv_ftemp ftemp (set_cv_y y cv_mem')))
       = set_cv_nfe nfe (set_cv_user_data ud (set_cv_ftemp ftemp (set_cv_y y cv_mem)))) /\
  (exists code res' cv_mem',
     cvNlsFPFunction ycor res (Some cv_mem) = Some (code, res', Some cv_mem') /\
     forall y ud nfe,
       set_cv_nfe nfe (set_cv_user_data ud (set_cv_y y cv_mem'))
       = set_cv_nfe nfe (set_cv_user_data ud (set_cv_y y cv_mem))).
Proof.
  intros Hnfe. split.
  - destruct (cv_f cv_mem (cv_tn cv_mem)
                (N_VLinearSum ONE (cv_zn cv_mem 0%nat) ONE ycor)
                (cv_ftemp cv_mem) (cv_user_data cv_mem))
      as [[retval ftemp] ud] eqn:Hf.
    rewrite (cvNlsResidual_unfold ycor res cv_mem retval ftemp ud Hf Hnfe).
    destruct (retval <? 0); [|destruct (0 <? retval)];
      do 3 eexists; (split; [reflexivity|]); reflexivity.
  - destruct (cv_f cv_mem (cv_tn cv_mem)
                (N_VLinearSum ONE (cv_zn cv_mem 0%nat) ONE ycor)
                res (cv_user_data cv_mem))
      as [[retval rhs] ud] eqn:Hf.
    rewrite (cvNlsFPFunction_unfold ycor res cv_mem retval rhs ud Hf Hnfe).
    destruct (retval <? 0); [|destruct (0 <? retval)];
      do 3 eexists; (split; [reflexivity|]); reflexivity.
Qed.

(** X7. Neither system function reads the current solution: whatever
    [cv_y] holds at the call, the results are the same. The state handed to
    the right-hand side is rebuilt from [zn[0]] and [ycor] on every call. *)
Theorem system_functions_do_not_read_cv_y ycor res cv_mem (v : N_Vector) :
  cvNlsResidual ycor res (Some (set_cv_y v cv_mem))
    = cvNlsResidual ycor res (Some cv_mem) /\
  cvNlsFPFunction ycor res (Some (set_cv_y v cv_mem))
    = cvNlsFPFunction ycor res (Some cv_mem).
Proof. split; reflexivity. Qed.

(** X8. A call without integrator memory returns [CV_MEM_NULL] from each of
    the five callbacks and writes nothing: [res], [delta], [*jcur] and
    [delp] keep their contents. The convergence test also returns
    [CV_MEM_NULL], with the memory and [delp] untouched, when the memory is
    there but the solver fails to report its iteration count. *)
Theorem callbacks_without_memory
  NLS ycor res delta tol ewt jbad jcur h delp cv_mem retval m :
  cvNlsLSetup (UserData := UserData) lsetup_body ycor res jbad jcur None
    = Some (CV_MEM_NULL, jcur, None) /\
  cvNlsLSolve (UserData := UserData) lsolve_body ycor delta None
    = Some (CV_MEM_NULL, delta, None) /\
  cvNlsConvTest (UserData := UserData) NLS ycor delta tol ewt None h delp
    = Some (CV_MEM_NULL, None, delp) /\
  cvNlsResidual (UserData := UserData) ycor res None
    = Some (CV_MEM_NULL, res, None) /\
  cvNlsFPFunction (UserData := UserData) ycor res None
    = Some (CV_MEM_NULL, res, None) /\
  (SUNNonlinSolGetCurIter NLS h = Some (retval, m) -> retval <> 0 ->
   cvNlsConvTest NLS ycor delta tol ewt (Some cv_mem) h delp
     = Some (CV_MEM_NULL, Some cv_mem, delp)).
Proof.
  repeat (split; [reflexivity|]).
  intros Hm Hret. unfold cvNlsConvTest. rewrite Hm. simpl.
  apply Z.eqb_neq in Hret. unfold is_success. rewrite Hret. reflexivity.
Qed.

(** *** Further properties of the linear solver wrappers *)

(** A call of [cvNlsLSetup] that returns has gone through the setup
    routine. *)
Lemma cvNlsLSetup_inv ycor res jbad jcur cv_mem code jcur' cv_mem' :
  cvNlsLSetup lsetup_body ycor res jbad jcur (Some cv_mem)
    = Some (code, jcur', Some cv_mem') ->
  let cv_mem0 :=
    if negb (jbad =? 0) then set_convfail CV_FAIL_BAD_J cv_mem else cv_mem in
  exists ls retval mem1,
    cv_lsetup cv_mem = Some ls /\
    lsetup_body ls cv_mem0 (convfail cv_mem0) = (retval, mem1) /\
    cv_nsetups mem1 < LONG_MAX /\
    cv_mem' =
      set_cv_nstlp (cv_nst mem1)
        (set_cv_gammap (cv_gamma mem1)
           (set_cv_gamrat ONE
              (set_cv_crate ONE (set_cv_nsetups (cv_nsetups mem1 + 1) mem1)))).
Proof.
  intros H cv_mem0.
  assert (Hls0 : cv_lsetup cv_mem0 = cv_lsetup cv_mem)
    by (subst cv_mem0; destruct (negb (jbad =? 0)); reflexivity).
  unfold cvNlsLSetup in H. fold cv_mem0 in H. rewrite Hls0 in H.
  destruct (cv_lsetup cv_mem) as [ls|]; [|discriminate]. simpl in H.
  destruct (lsetup_body ls cv_mem0 (convfail cv_mem0)) as [retval mem1] eqn:Hcall.
  unfold long_incr in H.
  destruct (Z.ltb_spec (cv_nsetups mem1) LONG_MAX) as [Hn|]; [|discriminate].
  simpl in H. exists ls, retval, mem1.
  repeat split; try assumption.
  destruct (retval <? 0); [|destruct (0 <? retval)]; inversion H; reflexivity.
Qed.

(** X9. [jbad] acts only through [convfail], and the content of [*jcur] at
    the call is never read: a call with [jbad] set, whatever its non-zero
    value, is the call with [jbad] clear on the memory whose [convfail] is
    [CV_FAIL_BAD_J]. With [jbad] clear the routine gets the stored
    [convfail]; the wrapper never resets it. *)
Theorem cvNlsLSetup_jbad ycor res jbad jcur1 jcur2 cv_mem :
  jbad <> 0 ->
  cvNlsLSetup lsetup_body ycor res jbad jcur1 (Some cv_mem)
    = cvNlsLSetup lsetup_body ycor res 0 jcur2
        (Some (set_convfail CV_FAIL_BAD_J cv_mem)).
Proof.
  intros Hj. apply Z.eqb_neq in Hj. unfold cvNlsLSetup. rewrite Hj.
  reflexivity.
Qed.

(** X10. The two wrappers add nothing to what the routines do beyond the
    bookkeeping of [cvNlsLSetup]: the memory that [cvNlsLSetup] returns is
    the one the setup routine left, up to the fields [cv_nsetups],
    [cv_crate], [cv_gamrat], [cv_gammap] and [cv_nstlp]; [cvNlsLSolve]
    returns the memory and the vector [delta] exactly as the solve routine
    left them, whatever its status, with or without a setup routine. Both
    return the code that belongs to the status of the routine. *)
Theorem linear_wrappers_frame :
  (forall ycor res jbad jcur cv_mem ls retval mem1,
     cv_lsetup cv_mem = Some ls ->
     let cv_mem0 :=
       if negb (jbad =? 0) then set_convfail CV_FAIL_BAD_J cv_mem else cv_mem in
     lsetup_body ls cv_mem0 (convfail cv_mem0) = (retval, mem1) ->
     cv_nsetups mem1 < LONG_MAX ->
     exists cv_mem',
       cvNlsLSetup lsetup_body ycor res jbad jcur (Some cv_mem)
         = Some (if retval <? 0 then CV_LSETUP_FAIL
                 else if 0 <? retval then SUN_NLS_CONV_RECVR else CV_SUCCESS,
                 cv_jcur mem1, Some cv_mem') /\
       forall nsetups crate gamrat gammap nstlp,
         set_cv_nstlp nstlp
           (set_cv_gammap gammap
              (set_cv_gamrat gamrat
                 (set_cv_crate crate (set_cv_nsetups nsetups cv_mem'))))
         = set_cv_nstlp nstlp
             (set_cv_gammap gammap
                (set_cv_gamrat gamrat
                   (set_cv_crate crate (set_cv_nsetups nsetups mem1))))) /\
  (forall ycor delta cv_mem lv retval delta' mem2,
     cv_lsolve cv_mem = Some lv ->
     lsolve_body lv cv_mem delta = (retval, delta', mem2) ->
     cvNlsLSolve lsolve_body ycor delta (Some cv_mem)
       = Some (if retval <? 0 then CV_LSOLVE_FAIL
               else if 0 <? retval then SUN_NLS_CONV_RECVR else CV_SUCCESS,
               delta', Some mem2)).
Proof.
  split.
  - intros ycor res jbad jcur cv_mem ls retval mem1 Hls cv_mem0 Hsetup Hn.
    rewrite (cvNlsLSetup_unfold ycor res jbad jcur cv_mem ls retval mem1
               Hls Hsetup Hn).
    eexists. split; reflexivity.
  - intros ycor delta cv_mem lv retval delta' mem2 Hlv Hsolve.
    exact (cvNlsLSolve_unfold ycor delta cv_mem lv retval delta' mem2
             Hlv Hsolve).
Qed.

(** X11. After any return of [cvNlsLSetup], successful or not, the next
    convergence test on that memory starts from the rate 1: at [m = 0] it
    decides by [del * 1 / tol <= 1], and at [m > 0] it leaves [crate =
    max(CRDOWN, del / delp)]. *)
Theorem cvNlsConvTest_after_cvNlsLSetup
  ycor res jbad jcur cv_mem code jcur' cv_mem'
  NLS ycor' delta tol ewt h delp m :
  cvNlsLSetup lsetup_body ycor res jbad jcur (Some cv_mem)
    = Some (code, jcur', Some cv_mem') ->
  SUNNonlinSolGetCurIter NLS h = Some (0, m) ->
  let del := N_VWrmsNorm delta ewt in
  (m = 0 ->
   cvNlsConvTest NLS ycor' delta tol ewt (Some cv_mem') h delp =
   if (del * ONE / tol <=? ONE)%float
   then Some (CV_SUCCESS, Some (set_cv_acnrm del cv_mem'), delp)
   else Some (SUN_NLS_CONTINUE, Some cv_mem', del)) /\
  (0 < m ->
   exists cv_mem'',
     mem_of (cvNlsConvTest NLS ycor' delta tol ewt (Some cv_mem') h delp)
       = Some cv_mem'' /\
     cv_crate cv_mem'' = SUNMAX CRDOWN (del / delp)).
Proof.
  intros Hsetup Hm del.
  destruct (cvNlsLSetup_inv ycor res jbad jcur cv_mem code jcur' cv_mem' Hsetup)
    as (ls & retval & mem1 & _ & _ & _ & Hmem).
  assert (Hcrate : cv_crate cv_mem' = ONE) by (rewrite Hmem; reflexivity).
  rewrite (cvNlsConvTest_unfold _ ycor' delta tol ewt cv_mem' _ delp _ Hm).
  fold del. split.
  - intros ->. simpl. rewrite Hcrate. reflexivity.
  - intros Hpos. replace (0 <? m) with true by (symmetry; apply Z.ltb_lt; lia).
    rewrite Hcrate.
    change (CRDOWN * ONE)%float with CRDOWN. unfold mem_of.
    repeat match goal with
           | |- context [if ?b then Some _ else _] => destruct b; simpl
           end; eexists; split; reflexivity.
Qed.

End Properties.

Section Registration.

Context {NV : N_VectorOps} {UserData NLSContent : Type}.

Implicit Types (cv_mem : CVodeMem UserData) (h : heap NLSContent).

(** *** Further properties of the registration *)

Lemma SUNNonlinSolSetSysFn_run h p (obj : SUNNonlinearSolver_obj NLSContent) f fn :
  h !! p = Some obj -> setsysfn (ops obj) = Some f ->
  SUNNonlinSolSetSysFn (Some p) fn h =
  Some ((f fn (content obj)).1,
        <[p := mkNLS (f fn (content obj)).2 (ops obj)]> h).
Proof.
  intros Hp Hf. unfold SUNNonlinSolSetSysFn. simpl. rewrite Hp. simpl.
  rewrite Hf. reflexivity.
Qed.

Lemma SUNNonlinSolSetConvTestFn_run h p (obj : SUNNonlinearSolver_obj NLSContent) fn :
  h !! p = Some obj ->
  let rc := run_optional ((fun f => f fn) <$> setctestfn (ops obj)) (content obj) in
  SUNNonlinSolSetConvTestFn (Some p) fn h =
  Some (rc.1, <[p := mkNLS rc.2 (ops obj)]> h).
Proof.
  intros Hp rc. subst rc. unfold SUNNonlinSolSetConvTestFn. simpl.
  rewrite Hp. simpl. destruct (setctestfn (ops obj)); [reflexivity|].
  simpl. destruct obj as [c o]. simpl. rewrite (insert_id h p _ Hp).
  reflexivity.
Qed.

Lemma SUNNonlinSolSetMaxIters_run h p (obj : SUNNonlinearSolver_obj NLSContent) n :
  h !! p = Some obj ->
  let rc := run_optional ((fun f => f n) <$> setmaxiters (ops obj)) (content obj) in
  SUNNonlinSolSetMaxIters (Some p) n h =
  Some (rc.1, <[p := mkNLS rc.2 (ops obj)]> h).
Proof.
  intros Hp rc. subst rc. unfold SUNNonlinSolSetMaxIters. simpl.
  rewrite Hp. simpl. destruct (setmaxiters (ops obj)); [reflexivity|].
  simpl. destruct obj as [c o]. simpl. rewrite (insert_id h p _ Hp).
  reflexivity.
Qed.

(** Simplification that keeps the calls of the setters. *)
Ltac simpl_dispatch :=
  with_strategy opaque
    [SUNNonlinSolSetSysFn SUNNonlinSolSetConvTestFn SUNNonlinSolSetMaxIters]
    simpl.

(** Freeing the installed solver leaves the candidate where it is. *)
Lemma free_installed_run cv_mem h p :
  installed_can_be_freed cv_mem h p ->
  (if is_null (cv_NLS cv_mem) then Some h
   else snd <$> SUNNonlinSolFree (cv_NLS cv_mem) h)
    = Some (free_installed cv_mem h) /\
  free_installed cv_mem h !! p = h !! p.
Proof.
  unfold installed_can_be_freed, free_installed.
  destruct (cv_NLS cv_mem) as [q|]; simpl.
  - intros (Hne & old & release & Hq & Hfree). rewrite Hq. simpl.
    rewrite Hfree. simpl. split; [reflexivity|].
    apply lookup_delete_ne. exact Hne.
  - intros _. split; reflexivity.
Qed.

(** The whole of [CVodeSetNonlinearSolver] on a candidate that has the
    required operations, with the three setters run in their order. *)
Lemma CVodeSetNonlinearSolver_run cv_mem h p cand type setsys :
  h !! p = Some cand ->
  gettype (ops cand) = Some type ->
  is_null (initialize (ops cand)) = false ->
  is_null (solve (ops cand)) = false ->
  is_null (free (ops cand)) = false ->
  setsysfn (ops cand) = Some setsys ->
  installed_can_be_freed cv_mem h p ->
  let h0 := free_installed cv_mem h in
  let cv_mem' := set_cv_NLS (Some p) cv_mem in
  let ty := type (content cand) in
  let SysFn := if ty =? SUNNONLINEARSOLVER_ROOTFIND
               then cvNlsResidual_fn else cvNlsFPFunction_fn in
  let r1 := setsys SysFn (content cand) in
  let r2 := run_optional
              ((fun f => f cvNlsConvTest_fn) <$> setctestfn (ops cand)) r1.2 in
  let r3 := run_optional
              ((fun f => f NLS_MAXCOR) <$> setmaxiters (ops cand)) r2.2 in
  CVodeSetNonlinearSolver (Some cv_mem) (Some p) h =
  if (ty =? SUNNONLINEARSOLVER_ROOTFIND) || (ty =? SUNNONLINEARSOLVER_FIXEDPOINT)
  then
    if negb (is_success r1.1)
    then Some (CV_ILL_INPUT, Some cv_mem', <[p := mkNLS r1.2 (ops cand)]> h0)
    else if negb (is_success r2.1)
    then Some (CV_ILL_INPUT, Some cv_mem', <[p := mkNLS r2.2 (ops cand)]> h0)
    else if negb (is_success r3.1)
    then Some (CV_ILL_INPUT, Some cv_mem', <[p := mkNLS r3.2 (ops cand)]> h0)
    else Some (CV_SUCCESS, Some cv_mem', <[p := mkNLS r3.2 (ops cand)]> h0)
  else Some (CV_ILL_INPUT, Some cv_mem', h0).
Proof.
  intros Hp Hty Hi Hs Hf Hsys Hinst h0 cv_mem' ty SysFn r1 r2 r3.
  destruct (free_installed_run cv_mem h p Hinst) as [Hfree Hp0].
  fold h0 in Hfree, Hp0. rewrite Hp in Hp0.
  unfold CVodeSetNonlinearSolver. rewrite Hp. simpl_dispatch.
  rewrite Hty, Hi, Hs, Hf, Hsys. simpl_dispatch. rewrite Hfree. simpl_dispatch.
  unfold SUNNonlinSolGetType. simpl_dispatch. rewrite Hp0. simpl_dispatch.
  rewrite Hty. simpl_dispatch. fold ty cv_mem'.
  assert (Htail :
    (SUNNonlinSolSetSysFn (Some p) SysFn h0 ≫= λ r,
       let '(retval, h1) := r in
       if negb (is_success retval) then Some (CV_ILL_INPUT, Some cv_mem', h1)
       else
         SUNNonlinSolSetConvTestFn (cv_NLS cv_mem') cvNlsConvTest_fn h1 ≫=
         λ '(retval0, h2),
           if negb (is_success retval0)
           then Some (CV_ILL_INPUT, Some cv_mem', h2)
           else
             SUNNonlinSolSetMaxIters (cv_NLS cv_mem') NLS_MAXCOR h2 ≫=
             λ '(retval1, h3),
               if negb (is_success retval1)
               then Some (CV_ILL_INPUT, Some cv_mem', h3)
               else Some (CV_SUCCESS, Some cv_mem', h3)) =
    if negb (is_success r1.1)
    then Some (CV_ILL_INPUT, Some cv_mem', <[p := mkNLS r1.2 (ops cand)]> h0)
    else if negb (is_success r2.1)
    then Some (CV_ILL_INPUT, Some cv_mem', <[p := mkNLS r2.2 (ops cand)]> h0)
    else if negb (is_success r3.1)
    then Some (CV_ILL_INPUT, Some cv_mem', <[p := mkNLS r3.2 (ops cand)]> h0)
    else Some (CV_SUCCESS, Some cv_mem', <[p := mkNLS r3.2 (ops cand)]> h0)).
  { change (cv_NLS cv_mem') with (Some p).
    rewrite (SUNNonlinSolSetSysFn_run h0 p cand setsys SysFn Hp0 Hsys).
    with_strategy opaque
      [SUNNonlinSolSetConvTestFn SUNNonlinSolSetMaxIters] simpl.
    fold r1. destruct (negb (is_success r1.1)); [reflexivity|].
    rewrite (SUNNonlinSolSetConvTestFn_run _ p (mkNLS r1.2 (ops cand))
               cvNlsConvTest_fn (lookup_insert_eq h0 p _)).
    with_strategy opaque [SUNNonlinSolSetMaxIters] simpl.
    fold r2. rewrite insert_insert_eq.
    destruct (negb (is_success r2.1)); [reflexivity|].
    rewrite (SUNNonlinSolSetMaxIters_run _ p (mkNLS r2.2 (ops cand))
               NLS_MAXCOR (lookup_insert_eq h0 p _)).
    simpl. fold r3. rewrite insert_insert_eq.
    destruct (negb (is_success r3.1)); reflexivity. }
  assert (Hroot : (ty =? SUNNONLINEARSOLVER_ROOTFIND) = true ->
                  SysFn = cvNlsResidual_fn) by (subst SysFn; intros ->; reflexivity).
  assert (Hfix : (ty =? SUNNONLINEARSOLVER_ROOTFIND) = false ->
                 SysFn = cvNlsFPFunction_fn) by (subst SysFn; intros ->; reflexivity).
  clearbody SysFn r1 r2 r3.
  destruct (ty =? SUNNONLINEARSOLVER_ROOTFIND); cbv beta iota delta [orb].
  - rewrite <- (Hroot eq_refl). exact Htail.
  - destruct (ty =? SUNNONLINEARSOLVER_FIXEDPOINT); cbv beta iota.
    + rewrite <- (Hfix eq_refl). exact Htail.
    + reflexivity.
Qed.

(** X12. On a candidate with the required operations, registration
    succeeds exactly when the type is root-finding or fixed-point and the
    three setters, run in this order on the content each predecessor left,
    all return 0: the system function ([cvNlsResidual] for root-finding,
    [cvNlsFPFunction] for fixed-point), the convergence test
    [cvNlsConvTest], and the iteration limit [NLS_MAXCOR = 3]. The candidate
    then holds the content the last setter left. A convergence-test or
    iteration-limit setter that the solver does not provide counts as
    success. *)
Theorem CVodeSetNonlinearSolver_success_iff cv_mem h p cand type setsys :
  h !! p = Some cand ->
  gettype (ops cand) = Some type ->
  is_null (initialize (ops cand)) = false ->
  is_null (solve (ops cand)) = false ->
  is_null (free (ops cand)) = false ->
  setsysfn (ops cand) = Some setsys ->
  installed_can_be_freed cv_mem h p ->
  let ty := type (content cand) in
  let SysFn := if ty =? SUNNONLINEARSOLVER_ROOTFIND
               then cvNlsResidual_fn else cvNlsFPFunction_fn in
  let r1 := setsys SysFn (content cand) in
  let r2 := run_optional
              ((fun f => f cvNlsConvTest_fn) <$> setctestfn (ops cand)) r1.2 in
  let r3 := run_optional
              ((fun f => f NLS_MAXCOR) <$> setmaxiters (ops cand)) r2.2 in
  let r := CVodeSetNonlinearSolver (Some cv_mem) (Some p) h in
  (retcode_of r = Some CV_SUCCESS <->
   (ty = SUNNONLINEARSOLVER_ROOTFIND \/ ty = SUNNONLINEARSOLVER_FIXEDPOINT) /\
   r1.1 = 0 /\ r2.1 = 0 /\ r3.1 = 0) /\
  (retcode_of r = Some CV_SUCCESS ->
   r = Some (CV_SUCCESS, Some (set_cv_NLS (Some p) cv_mem),
             <[p := mkNLS r3.2 (ops cand)]> (free_installed cv_mem h))).
Proof.
  intros Hp Hty Hi Hs Hf Hsys Hinst ty SysFn r1 r2 r3 r. subst r.
  rewrite (CVodeSetNonlinearSolver_run cv_mem h p cand type setsys
             Hp Hty Hi Hs Hf Hsys Hinst).
  fold ty SysFn r1 r2 r3. unfold is_success.
  destruct (Z.eqb_spec ty SUNNONLINEARSOLVER_ROOTFIND) as [Hr | Hr];
    destruct (Z.eqb_spec ty SUNNONLINEARSOLVER_FIXEDPOINT) as [Hx | Hx];
    destruct (Z.eqb_spec r1.1 0) as [H1 | H1];
    destruct (Z.eqb_spec r2.1 0) as [H2 | H2];
    destruct (Z.eqb_spec r3.1 0) as [H3 | H3];
    cbn [orb negb retcode_of fmap option_fmap option_map fst];
    (split; [split; [intros H; try discriminate H; auto
                    | intros (Hty' & ? & ? & ?); first [reflexivity | tauto]]
            | intros H; first [reflexivity | discriminate H]]).
Qed.

(** X13. Once a candidate has passed the null and capability checks, the
    replacement is done whatever code comes back, [CV_SUCCESS] or
    [CV_ILL_INPUT]: the integrator points to the candidate, the solver
    installed before is gone from memory, the candidate is alive with its
    table of operations unchanged, and no other solver in memory is
    touched. No other field of the integrator memory changes. *)
Theorem CVodeSetNonlinearSolver_replaces cv_mem h p cand type setsys :
  h !! p = Some cand ->
  gettype (ops cand) = Some type ->
  is_null (initialize (ops cand)) = false ->
  is_null (solve (ops cand)) = false ->
  is_null (free (ops cand)) = false ->
  setsysfn (ops cand) = Some setsys ->
  installed_can_be_freed cv_mem h p ->
  exists code h',
    CVodeSetNonlinearSolver (Some cv_mem) (Some p) h
      = Some (code, Some (set_cv_NLS (Some p) cv_mem), h') /\
    (code = CV_SUCCESS \/ code = CV_ILL_INPUT) /\
    (exists c', h' !! p = Some (mkNLS c' (ops cand))) /\
    (forall q, cv_NLS cv_mem = Some q -> h' !! q = None) /\
    (forall r, r <> p -> cv_NLS cv_mem <> Some r -> h' !! r = h !! r).
Proof.
  intros Hp Hty Hi Hs Hf Hsys Hinst.
  rewrite (CVodeSetNonlinearSolver_run cv_mem h p cand type setsys
             Hp Hty Hi Hs Hf Hsys Hinst).
  destruct (free_installed_run cv_mem h p Hinst) as [_ Hp0]. rewrite Hp in Hp0.
  assert (Hleaf : forall h',
    (h' = free_installed cv_mem h \/
     exists c', h' = <[p := mkNLS c' (ops cand)]> (free_installed cv_mem h)) ->
    (exists c', h' !! p = Some (mkNLS c' (ops cand))) /\
    (forall q, cv_NLS cv_mem = Some q -> h' !! q = None) /\
    (forall r, r <> p -> cv_NLS cv_mem <> Some r -> h' !! r = h !! r)).
  { intros h' Hh'. unfold installed_can_be_freed in Hinst.
    unfold free_installed in *.
    destruct Hh' as [-> | [c' ->]].
    - split; [exists (content cand); rewrite Hp0; destruct cand; reflexivity|].
      destruct (cv_NLS cv_mem) as [q0|].
      + split.
        * intros q [= <-]. apply lookup_delete_eq.
        * intros r _ Hr. apply lookup_delete_ne. congruence.
      + split; [discriminate | reflexivity].
    - split; [exists c'; apply lookup_insert_eq|].
      destruct (cv_NLS cv_mem) as [q0|].
      + destruct Hinst as [Hne _]. split.
        * intros q [= <-]. rewrite lookup_insert_ne by congruence.
          apply lookup_delete_eq.
        * intros r Hrp Hr. rewrite lookup_insert_ne by congruence.
          apply lookup_delete_ne. congruence.
      + split; [discriminate|].
        intros r Hrp _. apply lookup_insert_ne. congruence. }
  repeat match goal with
         | |- context [if ?b then Some _ else _] => destruct b
         end;
    do 2 eexists; (split; [reflexivity|]);
    (split; [first [left; reflexivity | right; reflexivity]|]);
    apply Hleaf; first [left; reflexivity | right; eexists; reflexivity].
Qed.

(** X14. Registering the solver that is already installed is undefined:
    the code frees the installed solver first and then queries the type of
    the candidate, which is the object just freed. *)
Theorem CVodeSetNonlinearSolver_same_solver cv_mem h p cand :
  cv_NLS cv_mem = Some p ->
  h !! p = Some cand ->
  is_null (gettype (ops cand)) || is_null (initialize (ops cand))
  || is_null (solve (ops cand)) || is_null (free (ops cand))
  || is_null (setsysfn (ops cand)) = false ->
  CVodeSetNonlinearSolver (Some cv_mem) (Some p) h = None.
Proof.
  intros Hq Hp Hcap. unfold CVodeSetNonlinearSolver. rewrite Hp.
  simpl_dispatch. rewrite Hcap, Hq. simpl_dispatch. rewrite Hp.
  simpl_dispatch.
  destruct (free (ops cand)) as [release|] eqn:Hfree.
  - simpl_dispatch. unfold SUNNonlinSolGetType. simpl.
    rewrite lookup_delete_eq. reflexivity.
  - reflexivity.
Qed.

(** *** The initialization *)

Variable SUNNonlinSolSetLSetupFn :
  SUNNonlinearSolver -> option SUNNonlinSolLSetupFn -> heap NLSContent ->
  option (Z * heap NLSContent).
Variable SUNNonlinSolSetLSolveFn :
  SUNNonlinearSolver -> option SUNNonlinSolLSolveFn -> heap NLSContent ->
  option (Z * heap NLSContent).
Variable SUNNonlinSolInitialize :
  SUNNonlinearSolver -> heap NLSContent -> option (Z * heap NLSContent).

#[local] Abbreviation cvNlsInit' :=
  (cvNlsInit SUNNonlinSolSetLSetupFn SUNNonlinSolSetLSolveFn
     SUNNonlinSolInitialize).

(** X15. [cvNlsInit] hands the solver the wrapper [cvNlsLSetup] only if the
    integrator has a setup routine, and a null pointer otherwise; likewise
    for [cvNlsLSolve]. It stops at the first of its three calls that does
    not return 0, with [CV_NLS_INIT_FAIL] and the solvers as that call left
    them, and returns [CV_SUCCESS] when all three return 0. *)
Theorem cvNlsInit_outcome cv_mem h :
  let NLS := cv_NLS cv_mem in
  let LSetupFn :=
    if is_null (cv_lsetup cv_mem) then None else Some cvNlsLSetup_fn in
  let LSolveFn :=
    if is_null (cv_lsolve cv_mem) then None else Some cvNlsLSolve_fn in
  (forall retval h1,
     SUNNonlinSolSetLSetupFn NLS LSetupFn h = Some (retval, h1) ->
     retval <> 0 ->
     cvNlsInit' cv_mem h = Some (CV_NLS_INIT_FAIL, h1)) /\
  (forall h1 retval h2,
     SUNNonlinSolSetLSetupFn NLS LSetupFn h = Some (0, h1) ->
     SUNNonlinSolSetLSolveFn NLS LSolveFn h1 = Some (retval, h2) ->
     retval <> 0 ->
     cvNlsInit' cv_mem h = Some (CV_NLS_INIT_FAIL, h2)) /\
  (forall h1 h2 retval h3,
     SUNNonlinSolSetLSetupFn NLS LSetupFn h = Some (0, h1) ->
     SUNNonlinSolSetLSolveFn NLS LSolveFn h1 = Some (0, h2) ->
     SUNNonlinSolInitialize NLS h2 = Some (retval, h3) ->
     cvNlsInit' cv_mem h =
     Some (if retval =? 0 then Code CV_SUCCESS else CV_NLS_INIT_FAIL, h3)).
Proof.
  intros NLS LSetupFn LSolveFn.
  assert (E1 : (if negb (is_null (cv_lsetup cv_mem))
                then SUNNonlinSolSetLSetupFn NLS (Some cvNlsLSetup_fn) h
                else SUNNonlinSolSetLSetupFn NLS None h)
               = SUNNonlinSolSetLSetupFn NLS LSetupFn h)
    by (subst LSetupFn; destruct (is_null (cv_lsetup cv_mem)); reflexivity).
  assert (E2 : forall h1,
             (if negb (is_null (cv_lsolve cv_mem))
              then SUNNonlinSolSetLSolveFn NLS (Some cvNlsLSolve_fn) h1
              else SUNNonlinSolSetLSolveFn NLS None h1)
             = SUNNonlinSolSetLSolveFn NLS LSolveFn h1)
    by (intros h1; subst LSolveFn; destruct (is_null (cv_lsolve cv_mem));
        reflexivity).
  unfold cvNlsInit. fold NLS. rewrite E1. repeat split.
  - intros retval h1 -> Hret. simpl. apply Z.eqb_neq in Hret.
    unfold is_success. rewrite Hret. reflexivity.
  - intros h1 retval h2 -> H2 Hret. simpl. rewrite E2, H2. simpl.
    apply Z.eqb_neq in Hret. unfold is_success. rewrite Hret. reflexivity.
  - intros h1 h2 retval h3 -> H2 H3. simpl. rewrite E2, H2. simpl.
    rewrite H3. simpl. unfold is_success. destruct (retval =? 0); reflexivity.
Qed.

End Registration.

(** ** The scenarios *)

Import NVectorSerial Scenario.

(** C1, as stated, fails: at [m = 1] with [delp = 0.1] and [del = 0.3] the
    increment has tripled, and with the tolerance 1 the test still answers
    [CV_SUCCESS], since [dcon = 0.3 <= 1] is tested first. *)
Lemma conv_test_tripled_norm_converges :
  SUNNonlinSolGetCurIter (Some 1%positive) (heap1 (solver 0 1)) = Some (0, 1) /\
  (RDIV * 0.1 <? N_VWrmsNorm (N_VectorOps := ops) [0.3%float] [1.0%float])%float = true /\
  retcode_of (conv_test 1 1.0 0.3 1.0 0.1) = Some CV_SUCCESS.
Proof. repeat split; vm_compute; reflexivity. Qed.

(** With the tolerance 0.1 the same increment is a divergence. *)
Lemma cvNlsConvTest_diverged_unless_converged_witness :
  SUNNonlinSolGetCurIter (Some 1%positive) (heap1 (solver 0 1)) = Some (0, 1) /\
  (RDIV * 0.1 <? N_VWrmsNorm (N_VectorOps := ops) [0.3%float] [1.0%float])%float = true /\
  retcode_of (conv_test 1 1.0 0.3 0.1 0.1) = Some SUN_NLS_CONV_RECVR.
Proof.
  split; [reflexivity|]. split; [reflexivity|].
  exact (cvNlsConvTest_diverged_unless_converged (NV := ops)
           (Some 1%positive) [0%float] [0.3%float] 0.1%float [1.0%float]
           (mem rhs_two 1.0%float None) (heap1 (solver 0 1)) 0.1%float 1
           eq_refl ltac:(lia) eq_refl).
Defined.

(** C2, as stated, fails: the same call leaves [crate = del / delp], which
    is above 1. *)
Lemma conv_test_crate_above_one :
  cv_crate <$> mem_of (conv_test 1 1.0 0.3 1.0 0.1)
    = Some 2.9999999999999996%float /\
  (ONE <? 2.9999999999999996)%float = true.
Proof. split; vm_compute; reflexivity. Qed.

Lemma cvNlsConvTest_crate_update_witness :
  SUNNonlinSolGetCurIter (Some 1%positive) (heap1 (solver 0 1)) = Some (0, 1) /\
  exists cv_mem',
    mem_of (conv_test 1 1.0 0.3 1.0 0.1) = Some cv_mem' /\
    cv_crate cv_mem' = SUNMAX (CRDOWN * 1.0) (0.3 / 0.1) /\
    (0 <? cv_crate cv_mem')%float = true /\
    (0 <? SUNMIN ONE (cv_crate cv_mem'))%float = true /\
    (ONE <? SUNMIN ONE (cv_crate cv_mem'))%float = false.
Proof.
  split; [reflexivity|].
  destruct (cvNlsConvTest_crate_update (NV := ops)
              (Some 1%positive) [0%float] [0.3%float] 1.0%float [1.0%float]
              (mem rhs_two 1.0%float None) (heap1 (solver 0 1)) 0.1%float 0 1
              eq_refl) as (cv_mem' & Hmem & Hcrate & _ & Hpos & Hle).
  exists cv_mem'. split; [exact Hmem|]. split; [exact Hcrate|].
  destruct (Hpos eq_refl eq_refl eq_refl) as [H1 H2].
  split; [exact H1|]. split; [exact H2 | exact Hle].
Defined.

(** C3, as stated, fails: at [m = 0] with the stored rate 0.5 the test
    converges on [del = 1.5] and [tol = 1], where [del / tol <= 1] is
    false. *)
Lemma conv_test_first_iteration_uses_stored_rate :
  SUNNonlinSolGetCurIter (Some 1%positive) (heap1 (solver 0 0)) = Some (0, 0) /\
  retcode_of (conv_test 0 0.5 1.5 1.0 0.1) = Some CV_SUCCESS /\
  (N_VWrmsNorm (N_VectorOps := ops) [1.5%float] [1.0%float] / 1.0 <=? ONE)%float = false.
Proof. repeat split; vm_compute; reflexivity. Qed.

(** The scenario of section 8: [tol = 1], weight 1, [m = 0], [del = 0.5]
    converge, and the accumulated norm is 0.5. *)
Lemma cvNlsConvTest_first_iteration_witness :
  SUNNonlinSolGetCurIter (Some 1%positive) (heap1 (solver 0 0)) = Some (0, 0) /\
  forall delp,
    conv_test 0 1.0 0.5 1.0 delp =
    Some (CV_SUCCESS, Some (set_cv_acnrm 0.5%float (mem rhs_two 1.0%float None)),
          delp).
Proof.
  split; [reflexivity|].
  exact (proj1 (cvNlsConvTest_first_iteration (NV := ops)
                  (Some 1%positive) [0%float] [0.5%float] 1.0%float [1.0%float]
                  (mem rhs_two 1.0%float None) (heap1 (solver 0 0)) eq_refl)).
Defined.

(** C4. When the right-hand side returns status 0, [cvNlsResidual] sets the
    current solution to [zn[0] + ycor] and returns in [res] the residual
    [rl1 * zn[1] + ycor - gamma * rhsOutput], computed as the code does: the
    linear sum of [rhsOutput] with coefficient [-gamma] and of [rl1 * zn[1]
    + ycor] with coefficient [ONE]. For [zn[0] = [1.0]], [zn[1] = [0.5]],
    [rl1 = 1.0], [gamma = 0.1], [ycor = [0.0]] and [rhsOutput = [2.0]] the
    current solution is [[1.0]] and the residual [[0.3]]. *)
Theorem cvNlsResidual_residual :
  (forall (NV : N_VectorOps) (UserData : Type) (ycor res : N_Vector)
          (cv_mem : CVodeMem UserData) (rhsOutput : N_Vector) (ud : UserData),
     let y := N_VLinearSum ONE (cv_zn cv_mem 0%nat) ONE ycor in
     cv_f cv_mem (cv_tn cv_mem) y (cv_ftemp cv_mem) (cv_user_data cv_mem)
       = (0, rhsOutput, ud) ->
     cv_nfe cv_mem < LONG_MAX ->
     exists cv_mem',
       cvNlsResidual ycor res (Some cv_mem) =
       Some (CV_SUCCESS,
             N_VLinearSum (- cv_gamma cv_mem)%float rhsOutput ONE
               (N_VLinearSum (cv_rl1 cv_mem) (cv_zn cv_mem 1%nat) ONE ycor),
             Some cv_mem') /\
       cv_y cv_mem' = y /\
       cv_ftemp cv_mem' = rhsOutput /\
       cv_nfe cv_mem' = cv_nfe cv_mem + 1) /\
  (let cv_mem := mem rhs_two 1.0 None in
   cv_zn cv_mem 0%nat = [1.0%float] /\ cv_zn cv_mem 1%nat = [0.5%float] /\
   cv_rl1 cv_mem = 1.0%float /\ cv_gamma cv_mem = 0.1%float /\
   (forall t y ydot ud, cv_f cv_mem t y ydot ud = (0, [2.0%float], ud)) /\
   exists cv_mem',
     cvNlsResidual (NV := ops) [0.0%float] [9.0%float] (Some cv_mem)
       = Some (CV_SUCCESS, [0.3%float], Some cv_mem') /\
     cv_y cv_mem' = [1.0%float]).
Proof.
  split.
  - intros NV UserData ycor res cv_mem rhsOutput ud.
    apply cvNlsResidual_success.
  - repeat (split; [reflexivity|]).
    eexists. split; vm_compute; reflexivity.
Qed.

Lemma cvNlsResidual_residual_witness :
  let cv_mem := mem rhs_two 1.0 None in
  cv_nfe cv_mem < LONG_MAX /\
  exists cv_mem',
    cvNlsResidual (NV := ops) [0.0%float] [9.0%float] (Some cv_mem) =
    Some (CV_SUCCESS,
          linear_sum (- 0.1) [2.0%float] ONE
            (linear_sum 1.0 [0.5%float] ONE [0.0%float]),
          Some cv_mem') /\
    cv_y cv_mem' = linear_sum ONE [1.0%float] ONE [0.0%float] /\
    cv_ftemp cv_mem' = [2.0%float] /\
    cv_nfe cv_mem' = 20 + 1.
Proof.
  split; [reflexivity|].
  exact (proj1 cvNlsResidual_residual ops unit [0.0%float] [9.0%float]
           (mem rhs_two 1.0%float None) [2.0%float] tt eq_refl eq_refl).
Defined.

(** The fixed-point function on the same integrator, with [h = 0.1]. *)
Lemma cvNlsFPFunction_success_witness :
  let cv_mem := mem rhs_two 1.0 None in
  cv_nfe cv_mem < LONG_MAX /\
  exists cv_mem',
    cvNlsFPFunction (NV := ops) [0.0%float] [9.0%float] (Some cv_mem) =
    Some (CV_SUCCESS,
          scale 1.0 (linear_sum 0.1 [2.0%float] (- ONE) [0.5%float]),
          Some cv_mem') /\
    cv_y cv_mem' = linear_sum ONE [1.0%float] ONE [0.0%float].
Proof.
  split; [reflexivity|].
  exact (cvNlsFPFunction_success (NV := ops) [0.0%float] [9.0%float]
           (mem rhs_two 1.0%float None) [2.0%float] tt eq_refl eq_refl).
Defined.

(** A right-hand side that fails for good is counted all the same. *)
Lemma system_functions_count_rhs_evaluation_witness :
  let cv_mem := mem (rhs_status (-1)) 1.0 None in
  cv_nfe cv_mem < LONG_MAX /\
  (exists res' cv_mem',
     cvNlsResidual (NV := ops) [0.0%float] [9.0%float] (Some cv_mem)
       = Some (CV_RHSFUNC_FAIL, res', Some cv_mem') /\
     cv_nfe cv_mem' = 20 + 1) /\
  (exists res' cv_mem',
     cvNlsFPFunction (NV := ops) [0.0%float] [9.0%float] (Some cv_mem)
       = Some (CV_RHSFUNC_FAIL, res', Some cv_mem') /\
     cv_nfe cv_mem' = 20 + 1).
Proof.
  split; [reflexivity|].
  exact (system_functions_count_rhs_evaluation (NV := ops)
           [0.0%float] [9.0%float] (mem (rhs_status (-1)) 1.0%float None)
           eq_refl).
Defined.

(** A recoverable failure of the right-hand side: [cv_y] held [[7.0]] at
    the call and holds [zn[0] + ycor = [1.0]] at the return. *)
Lemma system_functions_update_state_before_failure_witness :
  let cv_mem := mem (rhs_status 1) 1.0 None in
  cv_y cv_mem = [7.0%float] /\
  (exists cv_mem',
     cvNlsResidual (NV := ops) [0.0%float] [9.0%float] (Some cv_mem)
       = Some (RHSFUNC_RECVR, [9.0%float], Some cv_mem') /\
     cv_y cv_mem' = [1.0%float]) /\
  (exists cv_mem',
     cvNlsFPFunction (NV := ops) [0.0%float] [9.0%float] (Some cv_mem)
       = Some (RHSFUNC_RECVR, [9.0%float], Some cv_mem') /\
     cv_y cv_mem' = [1.0%float]).
Proof.
  split; [reflexivity|].
  exact (system_functions_update_state_before_failure (NV := ops)
           [0.0%float] [9.0%float] (mem (rhs_status 1) 1.0%float None)
           1 [0%float] tt 1 [9.0%float] tt eq_refl eq_refl
           ltac:(discriminate) ltac:(discriminate) eq_refl).
Defined.

(** The three statuses of the routines of the scenario, through both
    wrappers; the integrators that are solved on have no setup routine. *)
Lemma linear_wrappers_return_codes_witness :
  let setup ls :=
    retcode_of (cvNlsLSetup (NV := ops) lsetup_body [0%float] [0%float] 1 0
                  (Some (mem_routines (Some ls) None))) in
  let solve lv :=
    retcode_of (cvNlsLSolve (NV := ops) lsolve_body [0%float] [4.0%float]
                  (Some (mem_routines None (Some lv)))) in
  (setup 1%positive = Some CV_SUCCESS /\
   setup 2%positive = Some SUN_NLS_CONV_RECVR /\
   setup 3%positive = Some CV_LSETUP_FAIL) /\
  (solve 1%positive = Some CV_SUCCESS /\
   solve 2%positive = Some SUN_NLS_CONV_RECVR /\
   solve 3%positive = Some CV_LSOLVE_FAIL).
Proof.
  pose proof (linear_wrappers_return_codes (NV := ops) lsetup_body lsolve_body)
    as [Hsetup Hsolve].
  split.
  - split; [|split].
    + exact (proj2 (proj2 (Hsetup [0%float] [0%float] 1 0
                             (mem_routines (Some 1%positive) None)
                             1%positive 0 _ eq_refl eq_refl eq_refl)) eq_refl).
    + exact (proj1 (proj2 (Hsetup [0%float] [0%float] 1 0
                             (mem_routines (Some 2%positive) None)
                             2%positive 1 _ eq_refl eq_refl eq_refl)) eq_refl).
    + exact (proj1 (Hsetup [0%float] [0%float] 1 0
                      (mem_routines (Some 3%positive) None)
                      3%positive (-1) _ eq_refl eq_refl eq_refl) eq_refl).
  - split; [|split].
    + exact (proj2 (proj2 (Hsolve [0%float] [4.0%float]
                             (mem_routines None (Some 1%positive))
                             1%positive 0 _ _ eq_refl eq_refl)) eq_refl).
    + exact (proj1 (proj2 (Hsolve [0%float] [4.0%float]
                             (mem_routines None (Some 2%positive))
                             2%positive 1 _ _ eq_refl eq_refl)) eq_refl).
    + exact (proj1 (Hsolve [0%float] [4.0%float]
                      (mem_routines None (Some 3%positive))
                      3%positive (-1) _ _ eq_refl eq_refl) eq_refl).
Defined.

(** A setup that succeeds on the integrator of the scenario, called with
    [jbad] set. *)
Lemma cvNlsLSetup_bookkeeping_witness :
  let cv_mem := mem rhs_two 0.5 None in
  cv_lsetup cv_mem = Some 1%positive /\
  exists code jcur' cv_mem',
    cvNlsLSetup (NV := ops) lsetup_body [0%float] [0%float] 1 0 (Some cv_mem)
      = Some (code, jcur', Some cv_mem') /\
    cv_nsetups cv_mem' = 3 + 1 /\
    (cv_nsetups (set_cv_jcur 1 cv_mem) = cv_nsetups cv_mem ->
     cv_nsetups cv_mem' = cv_nsetups cv_mem + 1) /\
    jcur' = 1 /\ cv_jcur cv_mem' = 1 /\
    cv_gamrat cv_mem' = ONE /\ cv_crate cv_mem' = ONE /\
    cv_gammap cv_mem' = cv_gamma cv_mem' /\ cv_gamma cv_mem' = 0.1%float /\
    cv_nstlp cv_mem' = cv_nst cv_mem' /\ cv_nst cv_mem' = 10.
Proof.
  split; [reflexivity|].
  exact (cvNlsLSetup_bookkeeping (NV := ops) lsetup_body
           [0%float] [0%float] 1 0 (mem rhs_two 0.5%float None)
           1%positive 0 _ eq_refl eq_refl eq_refl).
Defined.


(** ** Further scenarios *)

(** At [m = 1] the norm goes from 0.1 to 0.15 under the tolerance 0.1:
    [dcon = 1.5], no divergence, one more iteration. *)
Lemma cvNlsConvTest_continue_witness :
  SUNNonlinSolGetCurIter (Some 1%positive) (heap1 (solver 0 1)) = Some (0, 1) /\
  conv_test 1 1.0 0.15 0.1 0.1 =
  Some (SUN_NLS_CONTINUE,
        Some (set_cv_crate (SUNMAX (CRDOWN * 1.0) (0.15 / 0.1))
                (mem rhs_two 1.0 None)),
        0.15%float).
Proof.
  split; [reflexivity|].
  exact (cvNlsConvTest_continue (NV := ops)
           (Some 1%positive) [0%float] [0.15%float] 0.1%float [1.0%float]
           (mem rhs_two 1.0%float None) (heap1 (solver 0 1)) 0.1%float 1
           eq_refl eq_refl (fun _ => eq_refl)).
Defined.

Lemma cvNlsConvTest_writes_witness :
  exists code cv_mem' delp',
    conv_test 0 1.0 0.5 1.0 0.1 = Some (code, Some cv_mem', delp') /\
    delp' = match code with SUN_NLS_CONTINUE => 0.5%float | _ => 0.1%float end /\
    cv_acnrm cv_mem' =
      match code with
      | CV_SUCCESS => 0.5%float
      | _ => 0%float
      end.
Proof.
  exact (cvNlsConvTest_writes (NV := ops)
           (Some 1%positive) [0%float] [0.5%float] 1.0%float [1.0%float]
           (mem rhs_two 1.0%float None) (heap1 (solver 0 0)) 0.1%float 0 0
           eq_refl).
Defined.

Lemma cvNlsConvTest_frame_witness :
  exists code cv_mem' delp',
    conv_test 1 1.0 0.3 1.0 0.1 = Some (code, Some cv_mem', delp') /\
    forall crate acnrm,
      set_cv_acnrm acnrm (set_cv_crate crate cv_mem')
      = set_cv_acnrm acnrm (set_cv_crate crate (mem rhs_two 1.0 None)).
Proof.
  exact (cvNlsConvTest_frame (NV := ops)
           (Some 1%positive) [0%float] [0.3%float] 1.0%float [1.0%float]
           (mem rhs_two 1.0%float None) (heap1 (solver 0 1)) 0.1%float 0 1
           eq_refl).
Defined.

(** An increment with a NaN component has a NaN norm. *)
Lemma cvNlsConvTest_nan_witness :
  PrimFloat.is_nan (N_VWrmsNorm (N_VectorOps := ops) [nan] [1.0%float]) = true /\
  exists cv_mem',
    conv_test 1 1.0 nan 1.0 0.1 = Some (SUN_NLS_CONTINUE, Some cv_mem', nan).
Proof.
  split; [reflexivity|].
  exact (proj1 (cvNlsConvTest_nan (NV := ops)
                  (Some 1%positive) [0%float] [nan] 1.0%float [1.0%float]
                  (mem rhs_two 1.0%float None) (heap1 (solver 0 1)) 0.1%float 1
                  eq_refl) eq_refl).
Defined.

(** A first test at [m = 0] on one integrator asks for another iteration
    with the norm 1.5; a test at [m = 1] on an integrator with another rate
    takes 1.5 for its previous norm. *)
Lemma cvNlsConvTest_carries_previous_norm_witness :
  conv_test 0 1.0 1.5 1.0 0.1
    = Some (SUN_NLS_CONTINUE, Some (mem rhs_two 1.0 None), 1.5%float) /\
  exists code cv_memB' delp2,
    conv_test 1 0.5 0.3 0.1 1.5 = Some (code, Some cv_memB', delp2) /\
    cv_crate cv_memB' = SUNMAX (CRDOWN * 0.5) (0.3 / 1.5) /\
    (code = SUN_NLS_CONV_RECVR -> (RDIV * 1.5 <? 0.3)%float = true).
Proof.
  split; [reflexivity|].
  exact (proj2 (cvNlsConvTest_carries_previous_norm (NV := ops)
                  (Some 1%positive) [0%float] [1.5%float] 1.0%float [1.0%float]
                  (mem rhs_two 1.0%float None) (heap1 (solver 0 0)) 0.1%float
                  (Some (mem rhs_two 1.0%float None)) 1.5%float
                  (Some 1%positive) [0%float] [0.3%float] 0.1%float [1.0%float]
                  (mem rhs_two 0.5%float None) (heap1 (solver 0 1)) 1
                  eq_refl eq_refl ltac:(lia))).
Defined.

Lemma system_functions_frame_witness :
  let cv_mem := mem rhs_two 1.0 None in
  cv_nfe cv_mem < LONG_MAX /\
  exists code res' cv_mem',
    cvNlsFPFunction (NV := ops) [0.0%float] [9.0%float] (Some cv_mem)
      = Some (code, res', Some cv_mem') /\
    forall y ud nfe,
      set_cv_nfe nfe (set_cv_user_data ud (set_cv_y y cv_mem'))
      = set_cv_nfe nfe (set_cv_user_data ud (set_cv_y y cv_mem)).
Proof.
  split; [reflexivity|].
  exact (proj2 (system_functions_frame (NV := ops) [0.0%float] [9.0%float]
                  (mem rhs_two 1.0%float None) eq_refl)).
Defined.

(** The solver at iteration 0 of the scenario with a query that fails. *)
Lemma callbacks_without_memory_witness :
  let failing :=
    mkNLS (mkContent 0 None None 0)
      (mkOps (Some (fun _ => 0)) (Some 1%positive) (Some 2%positive)
         (Some (fun _ => 0)) (Some (fun fn c => (0, c))) None None
         (Some (fun c => (-1, 0)))) in
  cvNlsConvTest (NV := ops) (Some 1%positive) [0%float] [0.5%float] 1.0
    [1.0%float] (Some (mem rhs_two 1.0 None)) (heap1 failing) 0.1
  = Some (CV_MEM_NULL, Some (mem rhs_two 1.0 None), 0.1%float).
Proof.
  exact (proj2 (proj2 (proj2 (proj2 (proj2
           (callbacks_without_memory (NV := ops) lsetup_body lsolve_body
              (Some 1%positive) [0%float] [0%float] [0.5%float] 1.0%float
              [1.0%float] 0 0
              (heap1 (mkNLS (mkContent 0 None None 0)
                        (mkOps (Some (fun _ => 0)) (Some 1%positive)
                           (Some 2%positive) (Some (fun _ => 0))
                           (Some (fun fn c => (0, c))) None None
                           (Some (fun c => (-1, 0))))))
              0.1%float (mem rhs_two 1.0%float None) (-1) 0)))))
           eq_refl ltac:(discriminate)).
Defined.

Lemma cvNlsLSetup_jbad_witness :
  let cv_mem := mem rhs_two 0.5 None in
  cvNlsLSetup (NV := ops) lsetup_body [0%float] [0%float] (-3) 0 (Some cv_mem)
  = cvNlsLSetup (NV := ops) lsetup_body [0%float] [0%float] 0 1
      (Some (set_convfail CV_FAIL_BAD_J cv_mem)).
Proof.
  exact (cvNlsLSetup_jbad (NV := ops) lsetup_body [0%float] [0%float] (-3) 0 1
           (mem rhs_two 0.5%float None) ltac:(discriminate)).
Defined.

(** A setup on an integrator without solve routine, and a solve that
    fails for good on an integrator without setup routine. *)
Lemma linear_wrappers_frame_witness :
  (exists cv_mem',
     cvNlsLSetup (NV := ops) lsetup_body [0%float] [0%float] 0 0
       (Some (mem_routines (Some 1%positive) None))
       = Some (CV_SUCCESS, 1, Some cv_mem') /\
     forall nsetups crate gamrat gammap nstlp,
       set_cv_nstlp nstlp
         (set_cv_gammap gammap
            (set_cv_gamrat gamrat
               (set_cv_crate crate (set_cv_nsetups nsetups cv_mem'))))
       = set_cv_nstlp nstlp
           (set_cv_gammap gammap
              (set_cv_gamrat gamrat
                 (set_cv_crate crate
                    (set_cv_nsetups nsetups
                       (set_cv_jcur 1 (mem_routines (Some 1%positive) None))))))) /\
  cvNlsLSolve (NV := ops) lsolve_body [0%float] [4.0%float]
    (Some (mem_routines None (Some 3%positive)))
  = Some (CV_LSOLVE_FAIL, [2.0%float],
          Some (mem_routines None (Some 3%positive))).
Proof.
  pose proof (linear_wrappers_frame (NV := ops) lsetup_body lsolve_body)
    as [Hsetup Hsolve].
  split.
  - exact (Hsetup [0%float] [0%float] 0 0 (mem_routines (Some 1%positive) None)
             1%positive 0 _ eq_refl eq_refl eq_refl).
  - exact (Hsolve [0%float] [4.0%float] (mem_routines None (Some 3%positive))
             3%positive (-1) _ _ eq_refl eq_refl).
Defined.

(** A setup on the integrator whose stored rate is 0.5, then a test at
    [m = 0]: [del = 0.75] under the tolerance 0.5 does not converge, as [0.75
    * 1 / 0.5 > 1], although [0.75 * 0.5 / 0.5 <= 1]. *)
Lemma cvNlsConvTest_after_cvNlsLSetup_witness :
  exists code jcur' cv_mem',
    cvNlsLSetup (NV := ops) lsetup_body [0%float] [0%float] 0 0
      (Some (mem rhs_two 0.5 None)) = Some (code, jcur', Some cv_mem') /\
    cvNlsConvTest (NV := ops) (Some 1%positive) [0%float] [0.75%float] 0.5
      [1.0%float] (Some cv_mem') (heap1 (solver 0 0)) 0.1
    = Some (SUN_NLS_CONTINUE, Some cv_mem', 0.75%float).
Proof.
  do 3 eexists. split; [reflexivity|].
  exact (proj1 (cvNlsConvTest_after_cvNlsLSetup (NV := ops) lsetup_body
                  [0%float] [0%float] 0 0 (mem rhs_two 0.5%float None) _ _ _
                  (Some 1%positive) [0%float] [0.75%float] 0.5%float [1.0%float]
                  (heap1 (solver 0 0)) 0.1%float 0 eq_refl eq_refl) eq_refl).
Defined.

(** The installed solver at address 1 can be freed for a candidate at
    address 2. *)
Lemma scenario_installed_can_be_freed (s : SUNNonlinearSolver_obj content_t) :
  installed_can_be_freed (NV := ops) (mem rhs_two 0.5 (Some 1%positive))
    (heap2 s) 2%positive.
Proof.
  split; [discriminate|]. exists (solver 0 0), (fun _ => 0).
  split; reflexivity.
Defined.

(** A fixed-point candidate at address 2 is installed over the solver at
    address 1: it ends up with [cvNlsFPFunction], [cvNlsConvTest] and the
    limit 3. *)
Lemma CVodeSetNonlinearSolver_success_iff_witness :
  let cv_mem := mem rhs_two 0.5 (Some 1%positive) in
  CVodeSetNonlinearSolver (Some cv_mem) (Some 2%positive) (heap2 (solver 1 0))
  = Some (CV_SUCCESS, Some (set_cv_NLS (Some 2%positive) cv_mem),
          <[2%positive :=
              mkNLS (mkContent 0 (Some cvNlsFPFunction_fn) (Some cvNlsConvTest_fn) 3)
                (newton_ops 1)]>
            (delete 1%positive (heap2 (solver 1 0)))).
Proof.
  exact (proj2 (CVodeSetNonlinearSolver_success_iff (NV := ops)
                  (mem rhs_two 0.5%float (Some 1%positive)) (heap2 (solver 1 0))
                  2%positive (solver 1 0) (fun _ => 1) _
                  eq_refl eq_refl eq_refl eq_refl eq_refl eq_refl
                  (scenario_installed_can_be_freed (solver 1 0)))
           eq_refl).
Defined.

Lemma CVodeSetNonlinearSolver_replaces_witness :
  let cv_mem := mem rhs_two 0.5 (Some 1%positive) in
  exists code h',
    CVodeSetNonlinearSolver (Some cv_mem) (Some 2%positive) (heap2 (solver 5 0))
      = Some (code, Some (set_cv_NLS (Some 2%positive) cv_mem), h') /\
    (code = CV_SUCCESS \/ code = CV_ILL_INPUT) /\
    (exists c', h' !! 2%positive = Some (mkNLS c' (newton_ops 5))) /\
    (forall q, Some 1%positive = Some q -> h' !! q = None) /\
    (forall r, r <> 2%positive -> Some 1%positive <> Some r ->
               h' !! r = heap2 (solver 5 0) !! r).
Proof.
  exact (CVodeSetNonlinearSolver_replaces (NV := ops)
           (mem rhs_two 0.5%float (Some 1%positive)) (heap2 (solver 5 0))
           2%positive (solver 5 0) (fun _ => 5) _
           eq_refl eq_refl eq_refl eq_refl eq_refl eq_refl
           (scenario_installed_can_be_freed (solver 5 0))).
Defined.

(** The solver at address 1 registered again. *)
Lemma CVodeSetNonlinearSolver_same_solver_witness :
  CVodeSetNonlinearSolver (Some (mem rhs_two 0.5 (Some 1%positive)))
    (Some 1%positive) (heap1 (solver 0 0)) = None.
Proof.
  exact (CVodeSetNonlinearSolver_same_solver (NV := ops)
           (mem rhs_two 0.5%float (Some 1%positive)) (heap1 (solver 0 0))
           1%positive (solver 0 0) eq_refl eq_refl eq_refl).
Defined.

(** An initialization that succeeds and one whose last call fails. *)
Lemma cvNlsInit_outcome_witness :
  let cv_mem := mem rhs_two 0.5 (Some 1%positive) in
  let h := heap1 (solver 0 0) in
  cvNlsInit set_lsetup_fn set_lsolve_fn (initialize_fn 0) cv_mem h
    = Some (Code CV_SUCCESS, h) /\
  cvNlsInit set_lsetup_fn set_lsolve_fn (initialize_fn (-4)) cv_mem h
    = Some (CV_NLS_INIT_FAIL, h).
Proof.
  split.
  - exact (proj2 (proj2 (cvNlsInit_outcome (NV := ops)
                           set_lsetup_fn set_lsolve_fn (initialize_fn 0)
                           (mem rhs_two 0.5%float (Some 1%positive))
                           (heap1 (solver 0 0))))
             _ _ 0 _ eq_refl eq_refl eq_refl).
  - exact (proj2 (proj2 (cvNlsInit_outcome (NV := ops)
                           set_lsetup_fn set_lsolve_fn (initialize_fn (-4))
                           (mem rhs_two 0.5%float (Some 1%positive))
                           (heap1 (solver 0 0))))
             _ _ (-4) _ eq_refl eq_refl eq_refl).
Defined.
